(** * keras_htr.models.encoder_decoder: attention encoder/decoder for
    handwritten text recognition

  A shallow embedding of [src/keras_htr/models/encoder_decoder.py].

  The three Keras sub-networks (encoder, attention, step decoder) are
  opaque numerical functions: they are parameters of the development.
  What is embedded in full is the Python control flow around them: the
  greedy inference loop of [InferenceModel.predict_single_output], the
  unrolling loop of [_create_training_model], and the orchestration
  methods [get_adapter], [fit], [save] and [load].

  Python integers are [Z]; NumPy rows of float64 are [list float] (Rocq's
  primitive binary64 floats); Python exceptions are values of [PyError]
  carried by the [PyResult] monad; the [while True] loop is run with fuel,
  [None] meaning that the fuel ran out before the loop left. *)

From Stdlib Require Import ZArith Lia Ascii.
From Stdlib Require Import Floats.PrimFloat Floats.SpecFloat Floats.FloatOps
  Floats.FloatAxioms.
From stdpp Require Import base option list strings gmap.

Set Warnings "-register-all,-inexact-float".

Local Open Scope Z_scope.

(** ** Python exceptions and results *)

Inductive PyError : Set :=
| IndexError
| ValueError
| TypeError
| KeyError
| ZeroDivisionError
| OverflowError
| FileNotFoundError
| FileExistsError
| IsADirectoryError
| OSError.

Inductive PyResult (A : Type) : Type :=
| Ok (a : A)
| Raise (e : PyError).
Arguments Ok {A} a.
Arguments Raise {A} e.

#[global] Instance PyResult_ret : MRet PyResult := fun _ a => Ok a.
#[global] Instance PyResult_bind : MBind PyResult := fun _ _ f m =>
match m with
| Ok a => f a
| Raise e => Raise e
end.

(** ** The NumPy operations the inference loop uses *)

Module Numpy.

(** [np.zeros((1, n))]: a row of [n] zeros; a negative dimension is a
    [ValueError]. The rows are those NumPy can allocate: a dimension that
    does not fit the index type, or a row that does not fit the memory,
    makes [np.zeros] raise where this function returns a row, so that
    statements about large [n] carry a bound on [n]. *)
Definition zeros (n : Z) : PyResult (list float) :=
  if n <? 0 then Raise ValueError
  else Ok (replicate (Z.to_nat n) PrimFloat.zero).

(** Index normalisation along an axis of length [n], for an index that is
    a machine integer: indices in [0, n) are kept, indices in [-n, 0) count
    from the end, anything else is an [IndexError]. *)
Definition index (n : nat) (i : Z) : PyResult nat :=
  if (0 <=? i) && (i <? Z.of_nat n) then Ok (Z.to_nat i)
  else if (- Z.of_nat n <=? i) && (i <? 0) then Ok (Z.to_nat (Z.of_nat n + i))
  else Raise IndexError.

(** [row[0, i] = v] *)
Definition setitem (row : list float) (i : Z) (v : float) : PyResult (list float) :=
  k ← index (length row) i; Ok (<[k := v]> row).

(** The scan of [np.argmax] after the first element: [mp] is the running
    maximum, [best] its index, [i] the index of the head of [l]. A NaN is
    taken as the maximum and ends the scan. *)
Fixpoint argmax_scan (mp : float) (best i : nat) (l : list float) : nat :=
  match l with
  | [] => best
  | x :: r =>
      if negb (PrimFloat.leb x mp)
      then (if PrimFloat.is_nan x then i else argmax_scan x i (S i) r)
      else argmax_scan mp best (S i) r
  end.

(** [np.argmax(pmf)]: index of the first maximum; [ValueError] on an empty
    row. *)
Definition argmax (pmf : list float) : PyResult Z :=
  match pmf with
  | [] => Raise ValueError
  | x :: r =>
      Ok (Z.of_nat (if PrimFloat.is_nan x then 0%nat else argmax_scan x 0 1 r))
  end.

(** [np.array(rows)] on a list of lists of integers, as NumPy 1.24 and
    later: the rows become the rows of a matrix, and rows of different
    lengths are a [ValueError]. *)
Definition array (rows : list (list Z)) : PyResult (list (list Z)) :=
  match rows with
  | [] => Ok []
  | r :: rows' =>
      if forallb (λ r', Nat.eqb (length r') (length r)) rows'
      then Ok rows else Raise ValueError
  end.

End Numpy.

(** ** InferenceModel *)

Module InferenceModel.

Section InferenceModel.

(** The image type, the encoder activations and the recurrent state
    vectors are whatever the tensor framework makes of them. *)
Context {Image Activations State : Type}.

(** [self._encoder], [self._attention], [self._decoder] and
    [self._num_output_tokens], as set by [InferenceModel.__init__]. The
    decoder returns the row [y_hat[0]] together with the new states. *)
Variable _encoder : Image → Activations * State * State.
Variable _attention : Activations → State → State → list float.
Variable _decoder : list float → State → State → list float * State * State.
Variable _num_output_tokens : Z.

(** Lines 26-27 and 41-42:
    [y_prev = np.zeros((1, n)); y_prev[0, i] = 1.0]. *)
Definition fresh_y_prev (i : Z) : PyResult (list float) :=
  row ← Numpy.zeros _num_output_tokens; Numpy.setitem row i PrimFloat.one.

(** The row these lines make when [i] is in [0, n): zeros with a single
    one at [i]. *)
Definition one_hot (i : Z) : list float :=
  <[Z.to_nat i := PrimFloat.one]> (replicate (Z.to_nat _num_output_tokens) PrimFloat.zero).

(** The variables the loop reads and writes. *)
Record LoopState : Type := mkLoop {
  y_prev : list float;
  state_h : State;
  state_c : State;
  labels : list Z
}.

(** Lines 31-42: one pass through attention and decoder, the argmax code
    and the next [y_prev]. *)
Definition decode_step (encoder_activations : Activations)
    (yp : list float) (h c : State) : PyResult (Z * list float * State * State) :=
  let context := _attention encoder_activations h c in
  let z := context ++ yp in
  let '(pmf, h', c') := _decoder z h c in
  code ← Numpy.argmax pmf;
  yp' ← fresh_y_prev code;
  Ok (code, yp', h', c').

(** What one iteration of [while True] does with the loop. *)
Inductive Flow : Type :=
| Continue (st : LoopState)
| Break (ls : list Z).

(** Lines 31-50: the body of the loop. *)
Definition loop_body (sos eos : Z) (encoder_activations : Activations)
    (st : LoopState) : PyResult Flow :=
  '(code, yp', h', c') ← decode_step encoder_activations (y_prev st) (state_h st) (state_c st);
  if (code =? eos) || (100 <? Z.of_nat (length (labels st)))
  then Ok (Break (labels st))
  else if code =? sos
  then Ok (Continue (mkLoop yp' h' c' (labels st)))
  else Ok (Continue (mkLoop yp' h' c' (labels st ++ [code]))).

(** Lines 30-52: [while True: ...; return labels], with fuel. *)
Fixpoint while_true (fuel : nat) (sos eos : Z) (encoder_activations : Activations)
    (st : LoopState) : option (PyResult (list Z)) :=
  match fuel with
  | O => None
  | S fuel' =>
      match loop_body sos eos encoder_activations st with
      | Raise e => Some (Raise e)
      | Ok (Break ls) => Some (Ok ls)
      | Ok (Continue st') => while_true fuel' sos eos encoder_activations st'
      end
  end.

(** Lines 20-52. The image [x] is a rank-3 array, so that the unpacking
    of its shape and the reshape to a batch of one succeed. *)
Definition predict_single_output (fuel : nat) (x : Image) (sos eos : Z)
    : option (PyResult (list Z)) :=
  let '(encoder_activations, h, c) := _encoder x in
  match fresh_y_prev sos with
  | Raise e => Some (Raise e)
  | Ok yp => while_true fuel sos eos encoder_activations (mkLoop yp h c [])
  end.

(** Line 55, the list comprehension: the images are decoded in order, and
    the first one whose decoding raises, or does not return, ends the
    comprehension; the images after it are not decoded. *)
Fixpoint predict_list (fuel : nat) (X : list Image) (sos eos : Z)
    : option (PyResult (list (list Z))) :=
  match X with
  | [] => Some (Ok [])
  | x :: X' =>
      match predict_single_output fuel x sos eos with
      | None => None
      | Some (Raise e) => Some (Raise e)
      | Some (Ok ls) =>
          match predict_list fuel X' sos eos with
          | None => None
          | Some (Raise e) => Some (Raise e)
          | Some (Ok rows) => Some (Ok (ls :: rows))
          end
      end
  end.

(** [np.array] on a list of label lists: what it makes of lists of
    different lengths depends on the version of NumPy, so the conversion
    is a parameter. *)
Context {Array : Type}.
Variable np_array : list (list Z) → PyResult Array.

(** Lines 54-55. *)
Definition predict (fuel : nat) (X : list Image) (sos eos : Z)
    : option (PyResult Array) :=
  match predict_list fuel X sos eos with
  | None => None
  | Some (Raise e) => Some (Raise e)
  | Some (Ok rows) => Some (np_array rows)
  end.

(** The argmax codes of the first [k] decoding steps when nothing stops
    the decoder: the sequence the loop consumes. It ends early only where
    a step raises. *)
Fixpoint argmax_codes (k : nat) (encoder_activations : Activations)
    (yp : list float) (h c : State) : list Z :=
  match k with
  | O => []
  | S k' =>
      match decode_step encoder_activations yp h c with
      | Ok (code, yp', h', c') => code :: argmax_codes k' encoder_activations yp' h' c'
      | Raise _ => []
      end
  end.

End InferenceModel.

End InferenceModel.

(** ** ConvolutionalEncoderDecoderWithAttention *)

(** Values that [json.dumps] writes and [json.loads] reads back. *)
Inductive JSON : Type :=
| JNull
| JBool (b : bool)
| JInt (z : Z)
| JFloat (f : float)
| JStr (s : string)
| JList (l : list JSON)
| JDict (d : gmap string JSON).

(** A Python function object made by a [lambda] expression. The only one
    in the module is [lambda x: x[:, t, :]] (line 105); [t] is free in it:
    the function reads the variable [t] of the frame of
    [_create_training_model] each time it is called. *)
Inductive PyLambda : Set :=
| slice_at (free_variable : string).

(** Symbolic Keras tensors, each with the layer call that made it.
    [LambdaOut f traced x] is the output of [Lambda(f)] called on [x];
    [traced] is the index that [f] read from the frame when the layer was
    called during construction. [Slice t x] is the tensor [x[:, t, :]]. *)
Inductive Sym : Type :=
| Input (shape : list Z)
| EncoderOut (output : nat) (x : Sym)
| AttentionOut (encoder_activations state_h state_c : Sym)
| LambdaOut (function : PyLambda) (traced : Z) (x : Sym)
| Concatenate (a b : Sym)
| DecoderOut (output : nat) (z state_h state_c : Sym)
| Slice (t : Z) (x : Sym).

(** [tf.keras.Model(inputs, outputs)] *)
Record KerasModel : Type := mkKerasModel {
  inputs : list Sym;
  outputs : list Sym
}.

(** The tensors of the graph as they were traced while the graph was
    built: every Lambda output is the slice its function computed then. *)
Fixpoint traced_tensor (s : Sym) : Sym :=
  match s with
  | Input shape => Input shape
  | EncoderOut i x => EncoderOut i (traced_tensor x)
  | AttentionOut a h c => AttentionOut (traced_tensor a) (traced_tensor h) (traced_tensor c)
  | LambdaOut f tr x => Slice tr (traced_tensor x)
  | Concatenate a b => Concatenate (traced_tensor a) (traced_tensor b)
  | DecoderOut i z h c => DecoderOut i (traced_tensor z) (traced_tensor h) (traced_tensor c)
  | Slice t x => Slice t (traced_tensor x)
  end.

(** A functional Keras model that is called on data calls the layers of its
    graph again, and a Lambda layer then calls its Python function again:
    [frame_t] is what the variable [t] of the frame holds at that time. *)
Fixpoint call_layers (frame_t : Z) (s : Sym) : Sym :=
  match s with
  | Input shape => Input shape
  | EncoderOut i x => EncoderOut i (call_layers frame_t x)
  | AttentionOut a h c =>
      AttentionOut (call_layers frame_t a) (call_layers frame_t h) (call_layers frame_t c)
  | LambdaOut (slice_at _) _ x => Slice frame_t (call_layers frame_t x)
  | Concatenate a b => Concatenate (call_layers frame_t a) (call_layers frame_t b)
  | DecoderOut i z h c =>
      DecoderOut i (call_layers frame_t z) (call_layers frame_t h) (call_layers frame_t c)
  | Slice t x => Slice t (call_layers frame_t x)
  end.

(** What a decoder output was given as its previous token: the second
    operand of the concatenation that is the decoder's input. *)
Definition teacher_input (y_hat : Sym) : option Sym :=
  match y_hat with
  | DecoderOut _ (Concatenate _ y) _ _ => Some y
  | _ => None
  end.

(** The keyword arguments [get_adapter] passes to
    [ConvolutionalEncoderDecoderAdapter], a class of
    [keras_htr.adapters.encoder_decoder_adapter]. *)
Module Adapter.
Record ConvolutionalEncoderDecoderAdapter : Set := mk {
  sos : Z;
  eos : Z;
  num_output_tokens : Z;
  max_image_width : Z;
  max_text_length : Z
}.
End Adapter.

(** A batch generator, as far as [fit] looks at it. *)
Record Generator : Set := mkGenerator {
  size : Z;
  batch_size : Z
}.

(** Python's [a / b] on integers: the exact quotient rounded to the nearest
    binary64 value. *)
Definition int_SF (z : Z) : spec_float :=
  match z with
  | Z0 => S754_zero false
  | Zpos p => S754_finite false p 0
  | Zneg p => S754_finite true p 0
  end.

Definition truediv (a b : Z) : PyResult float :=
  if b =? 0 then Raise ZeroDivisionError
  else match SFdiv prec emax (int_SF a) (int_SF b) with
       | S754_infinity _ => Raise OverflowError
       | q => Ok (SF2Prim q)
       end.

(** [math.ceil] on a float. *)
Definition math_ceil (f : float) : PyResult Z :=
  match Prim2SF f with
  | S754_zero _ => Ok 0
  | S754_infinity _ => Raise OverflowError
  | S754_nan => Raise ValueError
  | S754_finite s m e =>
      let v := if s then Z.neg m else Z.pos m in
      Ok (if 0 <=? e then v * 2 ^ e else - ((- v) / 2 ^ (- e)))
  end.

Module EncoderDecoder.

Section ConvolutionalEncoderDecoderWithAttention.

(** [Net] is a Keras model object; [UserObj] is any object a caller puts in
    the parameter dictionaries of [fit]. *)
Context {Image Activations State Net UserObj : Type}.

(** Calling a Keras model that is used as encoder, attention or decoder. *)
Variable call_encoder : Net → Image → Activations * State * State.
Variable call_attention : Net → Activations → State → State → list float.
Variable call_decoder : Net → list float → State → State → list float * State * State.

(** Lines 209-274 wire Keras layers into three models with freshly
    initialised weights; [compute_output_shape] is imported from
    [keras_htr]. *)
Variable make_encoder_model : Z → Z → Z → Net.
Variable make_step_decoder_model : Z → Z → Z → Net.
Variable make_attention_model : Z → Z → Net.
Variable compute_output_shape : Z * Z * Z → Z * Z.

(** The attributes of an instance. *)
Record Model : Type := mkModel {
  _height : Z;
  _units : Z;
  _output_size : Z;
  _max_image_width : Z;
  _max_text_length : Z;
  _sos : Z;
  _eos : Z;
  _encoder_inputs : Sym;
  _decoder_inputs : Sym;
  _encoder : Net;
  _decoder : Net;
  _attention : Net;
  _num_output_tokens : Z;
  _preprocessing_options : JSON
}.

(** Lines 57-88. *)
Definition __init__ (height units output_size max_image_width max_text_length sos eos : Z)
    : Model :=
  let channels := 1 in
  let Tx := max_text_length in
  let context_size := units in
  let decoder_input_size := context_size + output_size in
  let encoder_inputs := Input [height; max_image_width; channels] in
  let decoder_inputs := Input [Tx; output_size] in
  let encoder := make_encoder_model height channels units in
  let decoder := make_step_decoder_model units decoder_input_size output_size in
  let '(num_activations, _) := compute_output_shape (height, max_image_width, 1) in
  let attention := make_attention_model num_activations units in
  {| _height := height; _units := units; _output_size := output_size;
     _max_image_width := max_image_width; _max_text_length := max_text_length;
     _sos := sos; _eos := eos;
     _encoder_inputs := encoder_inputs; _decoder_inputs := decoder_inputs;
     _encoder := encoder; _decoder := decoder; _attention := attention;
     _num_output_tokens := output_size;
     _preprocessing_options := JDict ∅ |}.

(** Lines 90-93: the [InferenceModel] of an instance, through its one
    decoding method. *)
Definition inference_model (self : Model) (fuel : nat) (x : Image) (sos eos : Z)
    : option (PyResult (list Z)) :=
  InferenceModel.predict_single_output
    (call_encoder (_encoder self)) (call_attention (_attention self))
    (call_decoder (_decoder self)) (_num_output_tokens self) fuel x sos eos.

(** Lines 153-156; [np_array] is NumPy's [np.array]. *)
Definition predict {Array : Type} (np_array : list (list Z) → PyResult Array)
    (self : Model) (fuel : nat) (inputs : list Image * Z * Z)
    : option (PyResult Array) :=
  let '(X, sos, eos) := inputs in
  InferenceModel.predict
    (call_encoder (_encoder self)) (call_attention (_attention self))
    (call_decoder (_decoder self)) (_num_output_tokens self) np_array fuel X sos eos.

(** *** The training graph *)

(** The local variables of [_create_training_model] that the loop writes:
    [frame_t] is the variable [t], unbound before the first iteration;
    [stdout] collects what [print('STEP', t)] wrote. *)
Record Unroll : Type := mkUnroll {
  frame_t : option Z;
  state_h : Sym;
  state_c : Sym;
  outputs_so_far : list Sym;
  stdout : list Z
}.

(** Lines 102-110: the body of [for t in range(self._max_text_length)]. *)
Definition unroll_step (self : Model) (encoder_activations : Sym) (u : Unroll) (t : Z)
    : Unroll :=
  let context := AttentionOut encoder_activations (state_h u) (state_c u) in
  let y := LambdaOut (slice_at "t") t (_decoder_inputs self) in
  let z := Concatenate context y in
  {| frame_t := Some t;
     state_h := DecoderOut 1 z (state_h u) (state_c u);
     state_c := DecoderOut 2 z (state_h u) (state_c u);
     outputs_so_far := outputs_so_far u ++ [DecoderOut 0 z (state_h u) (state_c u)];
     stdout := stdout u ++ [t] |}.

(** The model the method returns, with the frame its Lambda functions
    read from. *)
Record TrainingModel : Type := mkTrainingModel {
  graph : KerasModel;
  closure_t : option Z;
  printed : list Z
}.

(** Lines 95-112. *)
Definition _create_training_model (self : Model) : TrainingModel :=
  let x := _encoder_inputs self in
  let u := foldl (unroll_step self (EncoderOut 0 x))
             (mkUnroll None (EncoderOut 1 x) (EncoderOut 2 x) [] [])
             (seqZ 0 (_max_text_length self)) in
  {| graph := mkKerasModel [_encoder_inputs self; _decoder_inputs self] (outputs_so_far u);
     closure_t := frame_t u;
     printed := stdout u |}.

(** The output tensors when the returned model is called on data, as
    training does: the layers of the graph are called again, after the
    loop has run to its end. *)
Definition called_outputs (m : TrainingModel) : list Sym :=
  match closure_t m with
  | Some t => call_layers t <$> outputs (graph m)
  | None => outputs (graph m)
  end.

(** The position of the teacher-forcing slice that each decoding step is
    given when the model is called. *)
Definition slice_position (y_hat : Sym) : option Z :=
  match teacher_input y_hat with
  | Some (Slice t _) => Some t
  | _ => None
  end.

(** The unrolling in closed form: the recurrent state that enters step
    [k], and the output of step [k]. *)
Fixpoint unrolled_state (self : Model) (k : nat) : Sym * Sym :=
  match k with
  | O => (EncoderOut 1 (_encoder_inputs self), EncoderOut 2 (_encoder_inputs self))
  | S k' =>
      let '(h, c) := unrolled_state self k' in
      let z := Concatenate (AttentionOut (EncoderOut 0 (_encoder_inputs self)) h c)
                 (LambdaOut (slice_at "t") (Z.of_nat k') (_decoder_inputs self)) in
      (DecoderOut 1 z h c, DecoderOut 2 z h c)
  end.

Definition unrolled_output (self : Model) (k : nat) : Sym :=
  let '(h, c) := unrolled_state self k in
  let z := Concatenate (AttentionOut (EncoderOut 0 (_encoder_inputs self)) h c)
             (LambdaOut (slice_at "t") (Z.of_nat k) (_decoder_inputs self)) in
  DecoderOut 0 z h c.

(** Lines 114-121. *)
Definition get_adapter (self : Model) : Adapter.ConvolutionalEncoderDecoderAdapter :=
  {| Adapter.sos := _sos self;
     Adapter.eos := _eos self;
     Adapter.num_output_tokens := _num_output_tokens self;
     Adapter.max_image_width := _max_image_width self;
     Adapter.max_text_length := _max_text_length self - 1 |}.

(** Lines 123-127. [EncoderDecoderPreprocessor] is a class of
    [keras_htr.preprocessing]; what is kept of it is the keyword arguments
    its [configure] is called with. Unpacking with two stars needs a
    mapping: any other value is a [TypeError]. *)
Record EncoderDecoderPreprocessor : Type := mkPreprocessor {
  configure_kwargs : gmap string JSON
}.

Definition get_preprocessor (self : Model) : PyResult EncoderDecoderPreprocessor :=
  match _preprocessing_options self with
  | JDict options => Ok (mkPreprocessor options)
  | _ => Raise TypeError
  end.

(** *** fit *)

Inductive Optimizer : Type :=
| Adam (lr : float)
| given_optimizer (o : UserObj).

Inductive Metrics : Type :=
| no_metrics
| given_metrics (m : UserObj).

(** The calls [fit] makes on the training model: [compile] and [fit] with
    their arguments. *)
Record TrainingRun : Type := mkTrainingRun {
  training_model : TrainingModel;
  compile_optimizer : Optimizer;
  compile_loss : string;
  compile_metrics : Metrics;
  fit_x : Generator;
  fit_steps_per_epoch : Z;
  fit_validation_data : Generator;
  fit_validation_steps : Z;
  fit_kwargs : gmap string UserObj
}.

(** The names [training_model.fit] is given explicitly on line 150-151; a
    key of [**training_params] that repeats one is a [TypeError]. *)
Definition fit_explicit_arguments : list string :=
  ["x"; "steps_per_epoch"; "validation_data"; "validation_steps"].

(** Lines 129-151. [None] stands for a parameter that is not given (or is
    given as [None] or as an empty dictionary). *)
Definition fit (self : Model) (train_generator val_generator : Generator)
    (compilation_params training_params : option (gmap string UserObj))
    : PyResult TrainingRun :=
  q ← truediv (size train_generator) (batch_size train_generator);
  steps_per_epoch ← math_ceil q;
  q' ← truediv (size val_generator) (batch_size val_generator);
  val_steps ← math_ceil q';
  let compilation_params := default ∅ compilation_params in
  let training_params := default ∅ training_params in
  let optimizer :=
    match compilation_params !! "optimizer" with
    | Some o => given_optimizer o
    | None => Adam 0.001
    end in
  let metrics :=
    match compilation_params !! "metrics" with
    | Some m => given_metrics m
    | None => no_metrics
    end in
  let training_model := _create_training_model self in
  if bool_decide (Exists (λ k, is_Some (training_params !! k)) fit_explicit_arguments)
  then Raise TypeError
  else Ok {| training_model := training_model;
             compile_optimizer := optimizer;
             compile_loss := "categorical_crossentropy";
             compile_metrics := metrics;
             fit_x := train_generator;
             fit_steps_per_epoch := steps_per_epoch;
             fit_validation_data := val_generator;
             fit_validation_steps := val_steps;
             fit_kwargs := training_params |}.

(** *** save and load *)

(** What a file holds: the text of a JSON value, or a saved Keras model. *)
Inductive File : Type :=
| JsonFile (doc : JSON)
| ModelFile (net : Net).

(** The part of the file system the two methods touch. Parent directories
    are taken to exist and to be writable. *)
Record FS : Type := mkFS {
  dirs : gset string;
  files : gmap string File
}.

(** [os.path.join(a, b)] for a relative [b]. *)
Fixpoint ends_with_slash (a : string) : bool :=
  match a with
  | EmptyString => false
  | String c EmptyString => Ascii.eqb c "/"%char
  | String _ r => ends_with_slash r
  end.

Definition os_path_join (a b : string) : string :=
  if bool_decide (a = "") then b
  else if ends_with_slash a then a +:+ b
  else a +:+ "/" +:+ b.

Definition os_path_exists (fs : FS) (p : string) : bool :=
  bool_decide (p ∈ dirs fs) || bool_decide (is_Some (files fs !! p)).

Definition os_mkdir (p : string) (fs : FS) : PyResult FS :=
  if bool_decide (p = "") then Raise FileNotFoundError
  else if os_path_exists fs p then Raise FileExistsError
  else Ok (mkFS ({[p]} ∪ dirs fs) (files fs)).

Definition write_file (p : string) (content : File) (fs : FS) : PyResult FS :=
  if bool_decide (p ∈ dirs fs) then Raise IsADirectoryError
  else Ok (mkFS (dirs fs) (<[p := content]> (files fs))).

Definition read_file (p : string) (fs : FS) : PyResult File :=
  if bool_decide (p ∈ dirs fs) then Raise IsADirectoryError
  else match files fs !! p with
       | Some content => Ok content
       | None => Raise FileNotFoundError
       end.

(** [d[key]] on what [json.loads] returned. *)
Definition getitem (d : JSON) (key : string) : PyResult JSON :=
  match d with
  | JDict m => match m !! key with
               | Some v => Ok v
               | None => Raise KeyError
               end
  | _ => Raise TypeError
  end.

(** Modelled from the spec: [save_model_params] is a method of the base
    class [HTRModel] ([keras_htr.models.base]), which is not among the
    sources. It writes the configuration record of the specification,
    [{"name": ..., "params": {...}, "preprocessing": {...}}], as JSON to
    [params_path]. *)
Definition save_model_params (params_path name : string) (model_params : gmap string JSON)
    (preprocessing_params : JSON) (fs : FS) : PyResult FS :=
  write_file params_path
    (JsonFile (JDict (<["name" := JStr name]>
                     (<["params" := JDict model_params]>
                     (<["preprocessing" := preprocessing_params]> ∅)))))
    fs.

(** [model.save(path)] of Keras. *)
Definition keras_save (net : Net) (p : string) (fs : FS) : PyResult FS :=
  write_file p (ModelFile net) fs.

(** [tf.keras.models.load_model(path)]: where there is no saved model at
    [path], Keras raises an [OSError]. *)
Definition load_model (p : string) (fs : FS) : PyResult Net :=
  match read_file p fs with
  | Ok (ModelFile net) => Ok net
  | _ => Raise OSError
  end.

(** [open(path).read()] followed by [json.loads]. *)
Definition read_json (p : string) (fs : FS) : PyResult JSON :=
  content ← read_file p fs;
  match content with
  | JsonFile doc => Ok doc
  | ModelFile _ => Raise ValueError
  end.

(** Lines 158-184. *)
Definition save (self : Model) (path : string) (preprocessing_params : JSON) (fs : FS)
    : PyResult FS :=
  fs ← (if negb (os_path_exists fs path) then os_mkdir path fs else Ok fs);
  let params_path := os_path_join path "params.json" in
  let encoder_weights_path := os_path_join path "encoder.h5" in
  let decoder_weights_path := os_path_join path "decoder.h5" in
  let attention_weights_path := os_path_join path "attention.h5" in
  let model_params : gmap string JSON :=
    <["height" := JInt (_height self)]>
    (<["units" := JInt (_units self)]>
    (<["output_size" := JInt (_output_size self)]>
    (<["max_image_width" := JInt (_max_image_width self)]>
    (<["max_text_length" := JInt (_max_text_length self)]>
    (<["sos" := JInt (_sos self)]>
    (<["eos" := JInt (_eos self)]> ∅)))))) in
  fs ← save_model_params params_path "ConvolutionalEncoderDecoderWithAttention"
         model_params preprocessing_params fs;
  fs ← keras_save (_encoder self) encoder_weights_path fs;
  fs ← keras_save (_decoder self) decoder_weights_path fs;
  keras_save (_attention self) attention_weights_path fs.

(** The parameter names of [__init__]. *)
Definition init_parameters : list string :=
  ["height"; "units"; "output_size"; "max_image_width"; "max_text_length"; "sos"; "eos"].

(** One keyword argument of the call of [cls]. The attributes of the
    model are integers: a parameter file with another JSON value for one
    of them is outside the model, which raises a [TypeError] there, where
    the code goes on with the value. *)
Definition int_argument (params : gmap string JSON) (name : string) : PyResult Z :=
  match params !! name with
  | Some (JInt z) => Ok z
  | _ => Raise TypeError
  end.

(** Line 199, [cls] called with the entries of [params] as keyword
    arguments: the keys have to be the parameter names of [__init__], all
    of them and no other. *)
Definition call_cls (params : JSON) : PyResult Model :=
  match params with
  | JDict kwargs =>
      if bool_decide (dom kwargs = list_to_set init_parameters)
      then height ← int_argument kwargs "height";
           units ← int_argument kwargs "units";
           output_size ← int_argument kwargs "output_size";
           max_image_width ← int_argument kwargs "max_image_width";
           max_text_length ← int_argument kwargs "max_text_length";
           sos ← int_argument kwargs "sos";
           eos ← int_argument kwargs "eos";
           Ok (__init__ height units output_size max_image_width max_text_length sos eos)
      else Raise TypeError
  | _ => Raise TypeError
  end.

(** Lines 186-206. *)
Definition load (path : string) (fs : FS) : PyResult Model :=
  let params_path := os_path_join path "params.json" in
  let encoder_weights_path := os_path_join path "encoder.h5" in
  let decoder_weights_path := os_path_join path "decoder.h5" in
  let attention_weights_path := os_path_join path "attention.h5" in
  d ← read_json params_path fs;
  params ← getitem d "params";
  instance ← call_cls params;
  encoder ← load_model encoder_weights_path fs;
  decoder ← load_model decoder_weights_path fs;
  attention ← load_model attention_weights_path fs;
  preprocessing ← getitem d "preprocessing";
  Ok {| _height := _height instance; _units := _units instance;
        _output_size := _output_size instance;
        _max_image_width := _max_image_width instance;
        _max_text_length := _max_text_length instance;
        _sos := _sos instance; _eos := _eos instance;
        _encoder_inputs := _encoder_inputs instance;
        _decoder_inputs := _decoder_inputs instance;
        _encoder := encoder; _decoder := decoder; _attention := attention;
        _num_output_tokens := _num_output_tokens instance;
        _preprocessing_options := preprocessing |}.

End ConvolutionalEncoderDecoderWithAttention.

End EncoderDecoder.

(** ** Scripted networks

    Small concrete networks on which the methods can be run. The image is
    a script, the code to produce at each step; the encoder passes it on as
    its activations and starts the step counter, kept in the hidden state,
    at zero; the attention context is the one-hot row of the scripted code
    for the current step; the decoder returns the first five entries of its
    input (the context) as its distribution and advances the counter. *)

Module Scripted.

Definition peak (n a : nat) : list float :=
  (λ i, if Nat.eqb i a then PrimFloat.one else PrimFloat.zero) <$> seq 0 n.

Definition encoder (x : nat → nat) : (nat → nat) * nat * nat := (x, 0%nat, 0%nat).

Definition attention (script : nat → nat) (h c : nat) : list float := peak 5 (script h).

Definition decoder (z : list float) (h c : nat) : list float * nat * nat :=
  (take 5 z, S h, c).

(** [predict_single_output] of the scripted networks with five output
    tokens. *)
Definition predict_single_output (fuel : nat) (x : nat → nat) (sos eos : Z) :=
  InferenceModel.predict_single_output encoder attention decoder 5 fuel x sos eos.

(** The script that follows the codes of a list and then repeats [d]. *)
Definition script (codes : list nat) (d : nat) : nat → nat :=
  λ i, default d (codes !! i).

(** Keras models as scripts; [make_*] build the script that always
    produces code 2. *)
Definition call_encoder (net : nat → nat) (x : nat → nat) : (nat → nat) * nat * nat :=
  (net, 0%nat, 0%nat).
Definition call_attention (net : nat → nat) := attention.
Definition call_decoder (net : nat → nat) := decoder.
Definition make_encoder_model (height channels units : Z) : nat → nat := λ _, 2%nat.
Definition make_step_decoder_model (units input_size output_size : Z) : nat → nat := λ _, 2%nat.
Definition make_attention_model (num_activations units : Z) : nat → nat := λ _, 2%nat.
Definition compute_output_shape (shape : Z * Z * Z) : Z * Z := (shape.1.2 `div` 4, 128).

Definition Model : Type := @EncoderDecoder.Model (nat → nat).

Definition __init__ : Z → Z → Z → Z → Z → Z → Z → Model :=
  EncoderDecoder.__init__ make_encoder_model make_step_decoder_model
    make_attention_model compute_output_shape.

(** A model of height 64 with 16 units, 5 output tokens, images up to 256
    wide, texts of 4 tokens, [sos = 0] and [eos = 1]. *)
Definition model : Model := __init__ 64 16 5 256 4 0 1.

Definition load : string → @EncoderDecoder.FS (nat → nat) → PyResult Model :=
  EncoderDecoder.load make_encoder_model make_step_decoder_model
    make_attention_model compute_output_shape.

(** An empty file system, preprocessing parameters, and the file system
    after [model.save("model", preprocessing)]. *)
Definition empty_fs : @EncoderDecoder.FS (nat → nat) := EncoderDecoder.mkFS ∅ ∅.

Definition preprocessing : JSON :=
  JDict (<["average_height" := JInt 48]> (<["binarize" := JBool true]> ∅)).

Definition saved_fs : @EncoderDecoder.FS (nat → nat) :=
  match EncoderDecoder.save model "model" preprocessing empty_fs with
  | Ok fs => fs
  | Raise _ => empty_fs
  end.

(** Generators of 10 and of 9 examples in batches of 3, and [fit] on them
    with no compilation and no training parameters. *)
Definition train_generator : Generator := mkGenerator 10 3.
Definition val_generator : Generator := mkGenerator 9 3.

Definition fit_result : PyResult (@EncoderDecoder.TrainingRun unit) :=
  EncoderDecoder.fit model train_generator val_generator None None.

End Scripted.

(** * Properties *)

Lemma bind_Ok_inv {A B} (f : A → PyResult B) (m : PyResult A) (b : B) :
  m ≫= f = Ok b → ∃ a, m = Ok a ∧ f a = Ok b.
Proof. destruct m as [a|e]; simpl; [eauto | discriminate]. Qed.

Lemma bind_Ok {A B} (f : A → PyResult B) (a : A) : Ok a ≫= f = f a.
Proof. reflexivity. Qed.

(** ** NumPy *)

Lemma argmax_scan_bound (l : list float) :
  ∀ mp best i, (best < i)%nat →
    (Numpy.argmax_scan mp best i l < i + length l)%nat.
Proof.
  induction l as [|x r IH]; intros mp best i Hlt; simpl.
  - lia.
  - destruct (negb (PrimFloat.leb x mp)).
    + destruct (PrimFloat.is_nan x); [lia|].
      specialize (IH x i (S i)). lia.
    + specialize (IH mp best (S i)). lia.
Qed.

Lemma argmax_range (pmf : list float) (code : Z) :
  Numpy.argmax pmf = Ok code → 0 ≤ code < Z.of_nat (length pmf).
Proof.
  destruct pmf as [|x r]; simpl; [discriminate|].
  intros [= <-]. destruct (PrimFloat.is_nan x); [lia|].
  pose proof (argmax_scan_bound r x 0%nat 1%nat). lia.
Qed.

Lemma index_nonneg_inv (n : nat) (i : Z) (k : nat) :
  0 ≤ i → Numpy.index n i = Ok k → i < Z.of_nat n ∧ k = Z.to_nat i.
Proof.
  intros Hi. unfold Numpy.index.
  destruct (0 <=? i) eqn:H0; [|lia].
  destruct (i <? Z.of_nat n) eqn:H1; simpl.
  - intros [= <-]. lia.
  - destruct (i <? 0) eqn:H2; [lia|].
    rewrite andb_false_r. discriminate.
Qed.

Lemma index_in_range (n : nat) (i : Z) :
  0 ≤ i < Z.of_nat n → Numpy.index n i = Ok (Z.to_nat i).
Proof.
  intros Hi. unfold Numpy.index.
  destruct (0 <=? i) eqn:H0; [|lia].
  destruct (i <? Z.of_nat n) eqn:H1; [reflexivity|lia].
Qed.

(** ** The greedy inference loop *)

Section InferenceModelProperties.

Context {Image Activations State : Type}.
Variable encoder : Image → Activations * State * State.
Variable attention : Activations → State → State → list float.
Variable decoder : list float → State → State → list float * State * State.
Variable n : Z.

Local Abbreviation fresh_y_prev := (InferenceModel.fresh_y_prev n).
Local Abbreviation one_hot := (InferenceModel.one_hot n).
Local Abbreviation decode_step := (InferenceModel.decode_step attention decoder n).
Local Abbreviation loop_body := (InferenceModel.loop_body attention decoder n).
Local Abbreviation while_true := (InferenceModel.while_true attention decoder n).
Local Abbreviation argmax_codes := (InferenceModel.argmax_codes attention decoder n).
Local Abbreviation predict_single_output :=
  (InferenceModel.predict_single_output encoder attention decoder n).
Local Abbreviation LoopState := (@InferenceModel.LoopState State).
Local Abbreviation mkLoop := (@InferenceModel.mkLoop State).
Local Abbreviation labels := (@InferenceModel.labels State).
Local Abbreviation Continue := (@InferenceModel.Continue State).
Local Abbreviation Break := (@InferenceModel.Break State).

Lemma fresh_y_prev_inv (i : Z) (yp : list float) :
  0 ≤ i → fresh_y_prev i = Ok yp → i < n ∧ yp = one_hot i.
Proof.
  intros Hi. unfold InferenceModel.fresh_y_prev, Numpy.zeros.
  destruct (n <? 0) eqn:Hn; simpl; [discriminate|].
  unfold Numpy.setitem. intros H.
  apply bind_Ok_inv in H as (k & Hk & Hset).
  rewrite length_replicate in Hk.
  apply index_nonneg_inv in Hk as [Hlt ->]; [|done].
  simplify_eq. split; [lia | reflexivity].
Qed.

Lemma fresh_y_prev_ok (i : Z) :
  0 ≤ i < n → fresh_y_prev i = Ok (one_hot i).
Proof.
  intros Hi. unfold InferenceModel.fresh_y_prev, Numpy.zeros.
  destruct (n <? 0) eqn:Hn; [lia|]. simpl.
  unfold Numpy.setitem. rewrite length_replicate, index_in_range by lia.
  reflexivity.
Qed.

(** A decoding step that does not raise yields a code that indexes a row
    of [n] entries, and the one-hot row of that code. *)
Lemma decode_step_inv (acts : Activations) (yp : list float) (h c : State)
    (code : Z) (yp' : list float) (h' c' : State) :
  decode_step acts yp h c = Ok (code, yp', h', c') →
  0 ≤ code < n ∧ yp' = one_hot code.
Proof.
  unfold InferenceModel.decode_step.
  destruct (decoder _ h c) as [[pmf h1] c1].
  intros H. apply bind_Ok_inv in H as (k & Hk & H).
  apply bind_Ok_inv in H as (y & Hy & H). simplify_eq.
  apply argmax_range in Hk.
  apply fresh_y_prev_inv in Hy as [? ->]; [|lia]. split; [lia|done].
Qed.

(** The three ways through the body of the loop. *)
Lemma loop_body_inv (sos eos : Z) (acts : Activations) (st : LoopState)
    (fl : InferenceModel.Flow) :
  loop_body sos eos acts st = Ok fl →
  ∃ code yp' h' c',
    decode_step acts (InferenceModel.y_prev st) (InferenceModel.state_h st)
      (InferenceModel.state_c st) = Ok (code, yp', h', c') ∧
    (((code = eos ∨ (100 < length (labels st))%nat) ∧ fl = Break (labels st)) ∨
     (code ≠ eos ∧ (length (labels st) ≤ 100)%nat ∧ code = sos ∧
        fl = Continue (mkLoop yp' h' c' (labels st))) ∨
     (code ≠ eos ∧ (length (labels st) ≤ 100)%nat ∧ code ≠ sos ∧
        fl = Continue (mkLoop yp' h' c' (labels st ++ [code])))).
Proof.
  unfold InferenceModel.loop_body. intros H.
  apply bind_Ok_inv in H as ([[[code yp'] h'] c'] & Hd & H).
  exists code, yp', h', c'. split; [done|].
  destruct (code =? eos) eqn:He; simpl in H.
  { left. simplify_eq. split; [left; lia | done]. }
  destruct (100 <? Z.of_nat (length (labels st))) eqn:Hl; simpl in H.
  { left. simplify_eq. split; [right; lia | done]. }
  destruct (code =? sos) eqn:Hs; simplify_eq.
  - right; left. repeat split; lia.
  - right; right. repeat split; lia.
Qed.

Lemma loop_body_step (sos eos : Z) (acts : Activations) (st : LoopState)
    (code : Z) (yp' : list float) (h' c' : State) :
  decode_step acts (InferenceModel.y_prev st) (InferenceModel.state_h st)
    (InferenceModel.state_c st) = Ok (code, yp', h', c') →
  loop_body sos eos acts st =
    if (code =? eos) || (100 <? Z.of_nat (length (labels st)))
    then Ok (Break (labels st))
    else if code =? sos
    then Ok (Continue (mkLoop yp' h' c' (labels st)))
    else Ok (Continue (mkLoop yp' h' c' (labels st ++ [code]))).
Proof. unfold InferenceModel.loop_body. intros ->. reflexivity. Qed.

(** More fuel does not change a result. *)
Lemma while_true_mono (sos eos : Z) (acts : Activations) (fuel fuel' : nat) :
  (fuel ≤ fuel')%nat → ∀ st r,
  while_true fuel sos eos acts st = Some r →
  while_true fuel' sos eos acts st = Some r.
Proof.
  revert fuel'. induction fuel as [|fuel IH]; intros fuel' Hle st r; simpl.
  - discriminate.
  - destruct fuel' as [|fuel']; [lia|]. simpl.
    destruct (loop_body sos eos acts st) as [[st'|ls]|e]; try done.
    apply IH. lia.
Qed.

(** Loop invariants on the list of labels: a property that holds of the
    labels on entry, and that appending a code the loop may append
    preserves, holds of the returned labels. *)
Lemma while_true_labels_ind (P : list Z → Prop) (sos eos : Z) (acts : Activations) :
  (∀ ls code, P ls → code ≠ eos → code ≠ sos → 0 ≤ code < n →
     (length ls ≤ 100)%nat → P (ls ++ [code])) →
  ∀ fuel st ls,
    P (labels st) →
    while_true fuel sos eos acts st = Some (Ok ls) → P ls.
Proof.
  intros Hstep. induction fuel as [|fuel IH]; intros st ls HP; simpl; [discriminate|].
  destruct (loop_body sos eos acts st) as [fl|e] eqn:Hb; [|discriminate].
  apply loop_body_inv in Hb as (code & yp' & h' & c' & Hd & Hcases).
  apply decode_step_inv in Hd as [Hrange _].
  destruct Hcases as [[_ ->]|[(_ & _ & _ & ->)|(He & Hl & Hs & ->)]].
  - intros [= <-]. done.
  - apply IH. done.
  - apply IH. simpl. by apply Hstep.
Qed.

Lemma predict_labels_ind (P : list Z → Prop) (sos eos : Z) :
  P [] →
  (∀ ls code, P ls → code ≠ eos → code ≠ sos → 0 ≤ code < n →
     (length ls ≤ 100)%nat → P (ls ++ [code])) →
  ∀ fuel x ls, predict_single_output fuel x sos eos = Some (Ok ls) → P ls.
Proof.
  intros Hnil Hstep fuel x ls. unfold InferenceModel.predict_single_output.
  destruct (encoder x) as [[acts h] c].
  destruct (fresh_y_prev sos) as [yp|e]; [|discriminate].
  apply (while_true_labels_ind P sos eos acts Hstep). done.
Qed.

(** The result of the loop from the codes it consumes. When the decoder
    produces the codes [cs], none of them [eos], and then a code that is
    [eos] or that comes after 101 labels have been collected, the loop
    returns at that code, and it returns the codes of [cs] other than
    [sos], cut after the 101st label. *)
Lemma while_true_codes (sos eos : Z) (acts : Activations) (cs : list Z) (final : Z) :
  ∀ yp h c ls fuel,
    argmax_codes (S (length cs)) acts yp h c = cs ++ [final] →
    eos ∉ cs →
    final = eos ∨ (101 ≤ length (ls ++ filter (λ code, code ≠ sos) cs))%nat →
    (length ls ≤ 101)%nat →
    (length cs < fuel)%nat →
    while_true fuel sos eos acts (mkLoop yp h c ls)
    = Some (Ok (take 101 (ls ++ filter (λ code, code ≠ sos) cs))).
Proof.
  induction cs as [|c0 cs IH]; intros yp h c ls fuel Hcodes Hno Hfinal Hlen Hfuel;
    (destruct fuel as [|fuel]; [simpl in Hfuel; lia|]);
    cbn [length InferenceModel.argmax_codes] in Hcodes;
    destruct (decode_step acts yp h c) as [[[[code yp'] h'] c']|e] eqn:Hd;
    try (simpl in Hcodes; discriminate);
    cbn [InferenceModel.while_true];
    rewrite (loop_body_step sos eos acts (mkLoop yp h c ls) code yp' h' c' Hd);
    cbn [InferenceModel.labels].
  - injection Hcodes as ->. rewrite app_nil_r in *.
    rewrite take_ge by lia.
    destruct Hfinal as [->|Hfull].
    + by rewrite Z.eqb_refl.
    + replace (100 <? Z.of_nat (length ls)) with true by lia.
      by rewrite orb_true_r.
  - injection Hcodes as -> Hcodes.
    apply not_elem_of_cons in Hno as [Hne Hno].
    replace (c0 =? eos) with false by lia. simpl orb.
    destruct (100 <? Z.of_nat (length ls)) eqn:Hcap.
    + rewrite take_app_length' by lia. reflexivity.
    + destruct (c0 =? sos) eqn:Hs.
      * rewrite filter_cons_False in * by (intros Hc; apply Hc; lia).
        apply IH; try done. simpl in Hfuel. lia.
      * rewrite filter_cons_True in * by lia.
        rewrite (IH yp' h' c' (ls ++ [c0]) fuel); try done.
        -- by rewrite <- app_assoc.
        -- by rewrite <- app_assoc.
        -- rewrite length_app. simpl. lia.
        -- simpl in Hfuel. lia.
Qed.

Lemma predict_codes (sos eos : Z) (x : Image) (acts : Activations) (h c : State)
    (yp : list float) (cs : list Z) (final : Z) (fuel : nat) :
  encoder x = (acts, h, c) →
  fresh_y_prev sos = Ok yp →
  argmax_codes (S (length cs)) acts yp h c = cs ++ [final] →
  eos ∉ cs →
  final = eos ∨ (101 ≤ length (filter (λ code, code ≠ sos) cs))%nat →
  (length cs < fuel)%nat →
  predict_single_output fuel x sos eos
  = Some (Ok (take 101 (filter (λ code, code ≠ sos) cs))).
Proof.
  intros Henc Hy Hcodes Hno Hfinal Hfuel.
  unfold InferenceModel.predict_single_output. rewrite Henc, Hy.
  rewrite (while_true_codes sos eos acts cs final yp h c [] fuel); try done.
  simpl. lia.
Qed.

Lemma predict_no_eos (sos eos : Z) (fuel : nat) (x : Image) (ls : list Z) :
  predict_single_output fuel x sos eos = Some (Ok ls) → eos ∉ ls.
Proof.
  apply (predict_labels_ind (λ ls, eos ∉ ls)).
  - apply not_elem_of_nil.
  - intros l code Hl He _ _ _. rewrite elem_of_app, list_elem_of_singleton.
    intros [?|?]; [done | congruence].
Qed.

Lemma predict_no_sos (sos eos : Z) (fuel : nat) (x : Image) (ls : list Z) :
  predict_single_output fuel x sos eos = Some (Ok ls) → sos ∉ ls.
Proof.
  apply (predict_labels_ind (λ ls, sos ∉ ls)).
  - apply not_elem_of_nil.
  - intros l code Hl _ Hs _ _. rewrite elem_of_app, list_elem_of_singleton.
    intros [?|?]; [done | congruence].
Qed.

Lemma predict_length (sos eos : Z) (fuel : nat) (x : Image) (ls : list Z) :
  predict_single_output fuel x sos eos = Some (Ok ls) → (length ls ≤ 101)%nat.
Proof.
  apply (predict_labels_ind (λ ls, (length ls ≤ 101)%nat)).
  - simpl. lia.
  - intros l code _ _ _ _ Hl. rewrite length_app. simpl. lia.
Qed.

Lemma predict_range (sos eos : Z) (fuel : nat) (x : Image) (ls : list Z) :
  predict_single_output fuel x sos eos = Some (Ok ls) →
  Forall (λ code, 0 ≤ code < n) ls.
Proof.
  apply (predict_labels_ind (Forall (λ code, 0 ≤ code < n))).
  - constructor.
  - intros l code Hl _ _ Hr _. apply Forall_app. split; [done|].
    by constructor.
Qed.

(** C1 (as amended). The label sequence that [predict_single_output]
    returns has at most 101 entries: the loop leaves when it finds more
    than 100 labels, so it appends a 101st before it does. This covers
    decoding that never produces [eos]: once 101 codes other than [sos]
    have come and the next step does not raise, the call returns, with
    the first 101 of them. *)
Theorem labels_length_le_101 (sos eos : Z) :
  (∀ fuel x ls,
     predict_single_output fuel x sos eos = Some (Ok ls) → (length ls ≤ 101)%nat) ∧
  (∀ x acts h c yp cs final fuel,
     encoder x = (acts, h, c) →
     fresh_y_prev sos = Ok yp →
     argmax_codes (S (length cs)) acts yp h c = cs ++ [final] →
     eos ∉ cs →
     (101 ≤ length (filter (λ code, code ≠ sos) cs))%nat →
     (length cs < fuel)%nat →
     ∃ ls, predict_single_output fuel x sos eos = Some (Ok ls) ∧
           ls = take 101 (filter (λ code, code ≠ sos) cs) ∧
           length ls = 101%nat).
Proof.
  split.
  - intros fuel x ls. apply predict_length.
  - intros x acts h c yp cs final fuel Henc Hy Hcodes Hno Hfull Hfuel.
    eexists. split; [eapply predict_codes; eauto|].
    split; [done|]. rewrite length_take. lia.
Qed.

(** C3. The returned label sequence never contains [eos]; a step whose
    argmax code is [eos] ends the loop, which returns the labels it has,
    the code not among them; and when the decoder produces the codes [cs]
    and then [eos] for the first time, the call returns the codes of [cs]
    other than [sos] (at most the first 101 of them), none of which is
    [eos]. *)
Theorem stops_at_first_eos (x : Image) (sos eos : Z) :
  (∀ fuel ls, predict_single_output fuel x sos eos = Some (Ok ls) → eos ∉ ls) ∧
  (∀ acts st code yp' h' c' fuel,
     decode_step acts (InferenceModel.y_prev st) (InferenceModel.state_h st)
       (InferenceModel.state_c st) = Ok (code, yp', h', c') →
     code = eos →
     loop_body sos eos acts st = Ok (Break (labels st)) ∧
     while_true (S fuel) sos eos acts st = Some (Ok (labels st))) ∧
  (∀ acts h c yp cs fuel,
     encoder x = (acts, h, c) →
     fresh_y_prev sos = Ok yp →
     argmax_codes (S (length cs)) acts yp h c = cs ++ [eos] →
     eos ∉ cs →
     (length cs < fuel)%nat →
     ∃ ls, predict_single_output fuel x sos eos = Some (Ok ls) ∧
           ls = take 101 (filter (λ code, code ≠ sos) cs) ∧
           eos ∉ ls).
Proof.
  split; [|split].
  - intros fuel ls. apply predict_no_eos.
  - intros acts st code yp' h' c' fuel Hd ->.
    assert (loop_body sos eos acts st = Ok (Break (labels st))) as Hb.
    { rewrite (loop_body_step sos eos acts st eos yp' h' c' Hd).
      by rewrite Z.eqb_refl. }
    split; [done|]. simpl. by rewrite Hb.
  - intros acts h c yp cs fuel Henc Hy Hcodes Hno Hfuel.
    eexists. split; [eapply predict_codes; eauto|]. split; [done|].
    intros Hin. apply Hno.
    apply elem_of_take in Hin as (i & Hi & _).
    apply list_elem_of_lookup_2 in Hi.
    by apply list_elem_of_filter in Hi as [_ ?].
Qed.


(** C10. Every label that [predict_single_output] returns is an integer
    in [0, num_output_tokens): a code is appended only after it has
    indexed a row of that length; and every iteration of the loop keeps the
    labels in that range. *)
Theorem labels_in_range (sos eos : Z) :
  (∀ fuel x ls, predict_single_output fuel x sos eos = Some (Ok ls) →
     Forall (λ code, 0 ≤ code < n) ls) ∧
  (∀ acts st st',
     Forall (λ code, 0 ≤ code < n) (labels st) →
     loop_body sos eos acts st = Ok (Continue st') →
     Forall (λ code, 0 ≤ code < n) (labels st')).
Proof.
  split.
  - intros fuel x ls. apply predict_range.
  - intros acts st st' Hall Hb.
    apply loop_body_inv in Hb as (code & yp' & h' & c' & Hd & Hcases).
    apply decode_step_inv in Hd as [Hrange _].
    destruct Hcases as [[_ ?]|[(_ & _ & _ & ?)|(_ & _ & _ & ?)]]; simplify_eq; simpl.
    + done.
    + apply Forall_app. split; [done|]. by constructor.
Qed.

End InferenceModelProperties.

(** C5. With five output tokens, [sos = 0] and [eos = 1]: when the first
    three argmax codes of the decoder are 3, 4, 1 the call returns [3; 4],
    and when they are 0, 3, 1 it returns [3]. *)
Theorem scenario_decodes {Image Activations State : Type}
    (encoder : Image → Activations * State * State)
    (attention : Activations → State → State → list float)
    (decoder : list float → State → State → list float * State * State)
    (x : Image) (acts : Activations) (h c : State) (fuel : nat) :
  encoder x = (acts, h, c) →
  (3 ≤ fuel)%nat →
  (InferenceModel.argmax_codes attention decoder 5 3 acts (InferenceModel.one_hot 5 0) h c
     = [3; 4; 1] →
   InferenceModel.predict_single_output encoder attention decoder 5 fuel x 0 1
     = Some (Ok [3; 4])) ∧
  (InferenceModel.argmax_codes attention decoder 5 3 acts (InferenceModel.one_hot 5 0) h c
     = [0; 3; 1] →
   InferenceModel.predict_single_output encoder attention decoder 5 fuel x 0 1
     = Some (Ok [3])).
Proof.
  intros Henc Hfuel.
  assert (InferenceModel.fresh_y_prev 5 0 = Ok (InferenceModel.one_hot 5 0)) as Hy
    by (apply fresh_y_prev_ok; lia).
  split; intros Hcodes.
  - rewrite (predict_codes encoder attention decoder 5 0 1 x acts h c _ [3; 4] 1 fuel
               Henc Hy Hcodes); [reflexivity | | by left | simpl; lia].
    rewrite !not_elem_of_cons. repeat split; [lia | lia | apply not_elem_of_nil].
  - rewrite (predict_codes encoder attention decoder 5 0 1 x acts h c _ [0; 3] 1 fuel
               Henc Hy Hcodes); [reflexivity | | by left | simpl; lia].
    rewrite !not_elem_of_cons. repeat split; [lia | lia | apply not_elem_of_nil].
Qed.

(** ** The scripted decoder *)

Lemma scripted_sos_step (h : nat) :
  InferenceModel.loop_body Scripted.attention Scripted.decoder 5 0 1 (Scripted.script [] 0)
    (InferenceModel.mkLoop (InferenceModel.one_hot 5 0) h 0%nat [])
  = Ok (InferenceModel.Continue
          (InferenceModel.mkLoop (InferenceModel.one_hot 5 0) (S h) 0%nat [])).
Proof. reflexivity. Qed.

Lemma scripted_sos_loop (fuel : nat) :
  ∀ h, InferenceModel.while_true Scripted.attention Scripted.decoder 5 fuel 0 1
         (Scripted.script [] 0)
         (InferenceModel.mkLoop (InferenceModel.one_hot 5 0) h 0%nat []) = None.
Proof.
  induction fuel as [|fuel IH]; intros h; [reflexivity|].
  cbn [InferenceModel.while_true]. rewrite scripted_sos_step. apply IH.
Qed.

Lemma scripted_sos_codes (k : nat) :
  ∀ h, InferenceModel.argmax_codes Scripted.attention Scripted.decoder 5 k
         (Scripted.script [] 0) (InferenceModel.one_hot 5 0) h 0%nat
       = replicate k 0%Z.
Proof.
  induction k as [|k IH]; intros h; [reflexivity|].
  cbn [InferenceModel.argmax_codes replicate].
  change (InferenceModel.decode_step Scripted.attention Scripted.decoder 5
            (Scripted.script [] 0) (InferenceModel.one_hot 5 0) h 0%nat)
    with (Ok (0, InferenceModel.one_hot 5 0, S h, 0%nat) : PyResult _).
  cbv beta iota. by rewrite IH.
Qed.

(** C1, as it is stated, fails: a decoder whose argmax code is 2 at every
    step (neither [sos = 0] nor [eos = 1]) makes the call return 101
    labels. *)
Lemma labels_length_exceeds_100 :
  ∃ ls, Scripted.predict_single_output 102 (Scripted.script [] 2) 0 1 = Some (Ok ls) ∧
        ¬ (length ls ≤ 100)%nat.
Proof.
  exists (replicate 101 2%Z). split; [vm_compute; reflexivity|].
  rewrite length_replicate. lia.
Qed.

(** The bound is reached: the decoder that always produces code 2 returns
    101 labels. *)
Lemma labels_length_le_101_witness :
  Scripted.predict_single_output 102 (Scripted.script [] 2) 0 1
    = Some (Ok (replicate 101 2%Z)) ∧
  (length (replicate 101 2%Z : list Z) ≤ 101)%nat.
Proof.
  split; [vm_compute; reflexivity|].
  apply (proj1 (labels_length_le_101 Scripted.encoder Scripted.attention Scripted.decoder
                  5 0 1) 102%nat (Scripted.script [] 2)).
  vm_compute; reflexivity.
Defined.

(** C2, at the input where the code fails it. With [sos = 0] and [eos = 1]
    distinct and a decoder whose argmax code is [sos] at every step, no
    amount of fuel lets the loop leave: no label is ever appended, so the
    length test never fires. *)
Theorem sos_forever_never_returns :
  (∀ k, InferenceModel.argmax_codes Scripted.attention Scripted.decoder 5 k
          (Scripted.script [] 0) (InferenceModel.one_hot 5 0) 0%nat 0%nat
        = replicate k 0%Z) ∧
  (∀ fuel, Scripted.predict_single_output fuel (Scripted.script [] 0) 0 1 = None).
Proof.
  split.
  - intros k. apply scripted_sos_codes.
  - intros fuel. apply (scripted_sos_loop fuel 0%nat).
Qed.

(** The scripted decoder that produces 3, 4 and then [eos = 1]. *)
Lemma stops_at_first_eos_witness :
  ∃ ls, Scripted.predict_single_output 3 (Scripted.script [3; 4; 1] 1)%nat 0 1 = Some (Ok ls) ∧
        ls = take 101 (filter (λ code, code ≠ 0) [3; 4]) ∧ 1 ∉ ls.
Proof.
  apply (proj2 (proj2 (stops_at_first_eos Scripted.encoder Scripted.attention
                         Scripted.decoder 5 (Scripted.script [3; 4; 1] 1)%nat 0 1))
           (Scripted.script [3; 4; 1] 1)%nat 0%nat 0%nat (InferenceModel.one_hot 5 0)
           [3; 4] 3%nat).
  - reflexivity.
  - reflexivity.
  - reflexivity.
  - rewrite !not_elem_of_cons. repeat split; [lia | lia | apply not_elem_of_nil].
  - simpl. lia.
Defined.


(** Both scenarios on the scripted decoder. *)
Lemma scenario_decodes_witness :
  Scripted.predict_single_output 3 (Scripted.script [3; 4; 1] 1)%nat 0 1 = Some (Ok [3; 4]) ∧
  Scripted.predict_single_output 3 (Scripted.script [0; 3; 1] 1)%nat 0 1 = Some (Ok [3]).
Proof.
  split.
  - apply (proj1 (scenario_decodes Scripted.encoder Scripted.attention Scripted.decoder
                    (Scripted.script [3; 4; 1] 1)%nat _ _ _ 3 eq_refl (le_n 3))).
    reflexivity.
  - apply (proj2 (scenario_decodes Scripted.encoder Scripted.attention Scripted.decoder
                    (Scripted.script [0; 3; 1] 1)%nat _ _ _ 3 eq_refl (le_n 3))).
    reflexivity.
Defined.

(** The labels of the scripted decoder that produces 3, 4 and then
    [eos = 1]. *)
Lemma labels_in_range_witness :
  Forall (λ code, 0 ≤ code < 5) [3; 4].
Proof.
  apply (proj1 (labels_in_range Scripted.encoder Scripted.attention Scripted.decoder 5 0 1)
           3%nat (Scripted.script [3; 4; 1] 1)%nat [3; 4]).
  reflexivity.
Defined.

(** ** The training graph *)

Section TrainingModelProperties.

Context {Net : Type}.

Local Abbreviation Model := (@EncoderDecoder.Model Net).
Local Abbreviation lambda_out self t :=
  (LambdaOut (slice_at "t") t (EncoderDecoder._decoder_inputs self)).

(** What the loop does to the local variables, over any list of values of
    [t]: it appends one output per value, whose previous-token input is
    the Lambda layer called at that value, and leaves the last value in
    [t]. *)
Lemma unroll_foldl (self : Model) (acts : Sym) (ts : list Z) :
  ∀ u, ∃ news,
    EncoderDecoder.outputs_so_far (foldl (EncoderDecoder.unroll_step self acts) u ts)
      = EncoderDecoder.outputs_so_far u ++ news ∧
    teacher_input <$> news = (λ t, Some (lambda_out self t)) <$> ts ∧
    EncoderDecoder.frame_t (foldl (EncoderDecoder.unroll_step self acts) u ts)
      = from_option Some (EncoderDecoder.frame_t u) (last ts).
Proof.
  induction ts as [|t ts IH]; intros u.
  - exists []. by rewrite app_nil_r.
  - destruct (IH (EncoderDecoder.unroll_step self acts u t)) as (news & Hout & Hin & Hfr).
    exists (DecoderOut 0
              (Concatenate (AttentionOut acts (EncoderDecoder.state_h u)
                              (EncoderDecoder.state_c u)) (lambda_out self t))
              (EncoderDecoder.state_h u) (EncoderDecoder.state_c u) :: news).
    cbn [foldl]. rewrite Hout, Hfr. cbn [EncoderDecoder.unroll_step
      EncoderDecoder.outputs_so_far EncoderDecoder.frame_t].
    split; [by rewrite <- app_assoc|]. split.
    + cbn [fmap list_fmap teacher_input]. by rewrite <- Hin.
    + destruct ts as [|t' ts]; [reflexivity|].
      rewrite last_cons_cons.
      destruct (last (t' :: ts)) eqn:Hl; [done|]. by apply last_None in Hl.
Qed.

Lemma create_training_model_outputs (self : Model) :
  teacher_input <$> outputs (EncoderDecoder.graph (EncoderDecoder._create_training_model self))
    = (λ t, Some (lambda_out self t)) <$> seqZ 0 (EncoderDecoder._max_text_length self) ∧
  EncoderDecoder.closure_t (EncoderDecoder._create_training_model self)
    = last (seqZ 0 (EncoderDecoder._max_text_length self)).
Proof.
  unfold EncoderDecoder._create_training_model.
  cbn [EncoderDecoder.graph EncoderDecoder.closure_t outputs].
  destruct (unroll_foldl self (EncoderOut 0 (EncoderDecoder._encoder_inputs self))
              (seqZ 0 (EncoderDecoder._max_text_length self))
              (EncoderDecoder.mkUnroll None
                 (EncoderOut 1 (EncoderDecoder._encoder_inputs self))
                 (EncoderOut 2 (EncoderDecoder._encoder_inputs self)) [] []))
    as (news & -> & Hin & ->).
  cbn [EncoderDecoder.outputs_so_far EncoderDecoder.frame_t app].
  split; [done|]. by destruct (last _).
Qed.

Lemma last_seqZ (m : Z) :
  0 < m → last (seqZ 0 m) = Some (m - 1).
Proof.
  intros Hm. rewrite last_lookup, length_seqZ.
  rewrite lookup_seqZ. split; lia.
Qed.

Lemma traced_slice_position (self : Model) (y_hat : Sym) (t : Z) :
  teacher_input y_hat = Some (lambda_out self t) →
  EncoderDecoder.slice_position (traced_tensor y_hat) = Some t.
Proof.
  destruct y_hat as [| | | | |i z h c|]; try discriminate.
  destruct z as [| | | |a b| |]; try discriminate.
  intros [= ->]. reflexivity.
Qed.

Lemma called_slice_position (self : Model) (frame_t : Z) (y_hat : Sym) (t : Z) :
  teacher_input y_hat = Some (lambda_out self t) →
  EncoderDecoder.slice_position (call_layers frame_t y_hat) = Some frame_t.
Proof.
  destruct y_hat as [| | | | |i z h c|]; try discriminate.
  destruct z as [| | | |a b| |]; try discriminate.
  intros [= ->]. reflexivity.
Qed.

Lemma fmap_teacher_input_inv (self : Model) (f : Sym → Sym) (g : Z → option Z)
    (outs : list Sym) (ts : list Z) :
  (∀ y_hat t, teacher_input y_hat = Some (lambda_out self t) →
              EncoderDecoder.slice_position (f y_hat) = g t) →
  teacher_input <$> outs = (λ t, Some (lambda_out self t)) <$> ts →
  EncoderDecoder.slice_position <$> (f <$> outs) = g <$> ts.
Proof.
  intros Hf. revert ts. induction outs as [|o outs IH]; intros [|t ts] H;
    try discriminate; [reflexivity|].
  injection H as Ho H. cbn [fmap list_fmap]. f_equal; [by apply Hf | by apply IH].
Qed.

(** C6, where the code fails it. The graph has one output per step
    [t = 0 .. max_text_length - 1], and while it is built the Lambda layer
    of step [t] computes the slice at position [t]. But the function of
    every Lambda layer reads the loop variable when it is called, so when
    the returned model is called, each step is given the slice at the last
    position, [max_text_length - 1]. *)
Theorem training_model_reads_last_slice (self : Model) :
  let Tx := EncoderDecoder._max_text_length self in
  let m := EncoderDecoder._create_training_model self in
  length (outputs (EncoderDecoder.graph m)) = Z.to_nat Tx ∧
  EncoderDecoder.slice_position <$> (traced_tensor <$> outputs (EncoderDecoder.graph m))
    = Some <$> seqZ 0 Tx ∧
  EncoderDecoder.slice_position <$> EncoderDecoder.called_outputs m
    = replicate (Z.to_nat Tx) (Some (Tx - 1)).
Proof.
  intros Tx m.
  destruct (create_training_model_outputs self) as [Hin Hfr].
  fold Tx in Hin, Hfr. fold m in Hin, Hfr.
  split; [|split].
  - apply (f_equal length) in Hin. rewrite !length_fmap, length_seqZ in Hin. done.
  - apply (fmap_teacher_input_inv self traced_tensor Some); [|done].
    apply traced_slice_position.
  - unfold EncoderDecoder.called_outputs. rewrite Hfr.
    destruct (decide (0 < Tx)) as [Hpos|Hneg].
    + rewrite last_seqZ by done.
      rewrite (fmap_teacher_input_inv self (call_layers (Tx - 1)) (λ _, Some (Tx - 1))
                 _ (seqZ 0 Tx)); [| by intros; eapply called_slice_position | done].
      apply list_eq. intros i. rewrite list_lookup_fmap.
      destruct (decide (i < Z.to_nat Tx)%nat).
      * rewrite lookup_replicate_2 by done.
        rewrite (lookup_seqZ_lt) by lia. done.
      * rewrite lookup_seqZ_ge by lia. symmetry.
        apply lookup_ge_None_2. rewrite length_replicate. lia.
    + assert (seqZ 0 Tx = []) as Hnil by (apply seqZ_nil; lia).
      rewrite Hnil in Hin |- *. cbn [last].
      apply fmap_nil_inv in Hin. rewrite Hin.
      replace (Z.to_nat Tx) with 0%nat by lia. reflexivity.
Qed.

End TrainingModelProperties.

(** The training graph of a model of two steps: built with the slices at
    positions 0 and 1, called with the slice at position 1 twice. *)
Example training_model_two_steps :
  let m := EncoderDecoder._create_training_model (Scripted.__init__ 64 16 5 256 2 0 1) in
  EncoderDecoder.slice_position <$> (traced_tensor <$> outputs (EncoderDecoder.graph m))
    = [Some 0; Some 1] ∧
  EncoderDecoder.slice_position <$> EncoderDecoder.called_outputs m = [Some 1; Some 1] ∧
  EncoderDecoder.printed m = [0; 1].
Proof. repeat split. Qed.

(** ** The quotient of two integers and its ceiling

    [size / batch_size] is the exact quotient rounded to binary64, and
    [math.ceil] takes the ceiling of the rounded value. For operands below
    [2 ^ 52] the rounding moves the quotient by less than the distance to
    the next integer above, so that the ceiling is the one of the exact
    quotient. The proof follows the division of [SpecFloat]: the dividend
    is shifted by [s >= 2] bits, the integer quotient [q] has 53 or 54
    bits, and the two rounding passes move it by at most one unit of the
    last kept bit. *)

Lemma digits2_pos_log2 (p : positive) :
  Z.pos (digits2_pos p) = Z.log2 (Z.pos p) + 1.
Proof.
  assert (∀ q, digits2_pos q = Pos.size q) as Hsize.
  { induction q as [q IH|q IH|]; simpl; rewrite ?IH; reflexivity. }
  rewrite Hsize. destruct p; simpl; lia.
Qed.

Lemma digits2_pos_bounds (p : positive) :
  (2 ^ (Z.pos (digits2_pos p) - 1) <= Z.pos p < 2 ^ Z.pos (digits2_pos p))%Z.
Proof.
  rewrite digits2_pos_log2.
  replace (Z.log2 (Z.pos p) + 1 - 1) with (Z.log2 (Z.pos p)) by lia.
  replace (Z.log2 (Z.pos p) + 1) with (Z.succ (Z.log2 (Z.pos p))) by lia.
  apply Z.log2_spec. lia.
Qed.

(** The number of digits of a positive number, from bounds on it. *)
Lemma digits2_pos_unique (p : positive) (d : Z) :
  (2 ^ (d - 1) <= Z.pos p < 2 ^ d)%Z → 0 < d → Z.pos (digits2_pos p) = d.
Proof.
  intros [Hlo Hhi] Hd. pose proof (digits2_pos_bounds p) as [Hlo' Hhi'].
  set (d' := Z.pos (digits2_pos p)) in *.
  assert (0 < d') by (subst d'; lia).
  destruct (Z.lt_trichotomy d d') as [Hlt|[->|Hgt]]; [|done|].
  - assert (2 ^ d ≤ 2 ^ (d' - 1)) by (apply Z.pow_le_mono_r; lia). lia.
  - assert (2 ^ d' ≤ 2 ^ (d - 1)) by (apply Z.pow_le_mono_r; lia). lia.
Qed.

(** *** Rounding steps *)

Lemma round_nearest_even_bounds (m : Z) (l : location) :
  m ≤ round_nearest_even m l ≤ m + 1 ∧
  (l = loc_Exact → round_nearest_even m l = m).
Proof.
  destruct l as [|[]]; simpl; try destruct (Z.even m); split; try lia; try done.
Qed.

Lemma loc_of_shr_record_of_loc (m : Z) (l : location) :
  loc_of_shr_record (shr_record_of_loc m l) = l ∧
  shr_m (shr_record_of_loc m l) = m.
Proof. by destruct l as [|[]]. Qed.

Lemma shr_1_pos (mrs : shr_record) :
  0 < shr_m mrs →
  shr_m mrs = 2 * shr_m (shr_1 mrs) + (if shr_r (shr_1 mrs) then 1 else 0) ∧
  (loc_of_shr_record (shr_1 mrs) = loc_Exact →
   shr_r (shr_1 mrs) = false ∧ loc_of_shr_record mrs = loc_Exact).
Proof.
  destruct mrs as [m r s]. simpl. intros Hm.
  destruct m as [|[p|p|]|]; try lia; simpl; (split; [lia|]);
    destruct r, s; simpl; try done.
Qed.

(** [shr_fexp] on a mantissa of 53 or 54 bits, away from the subnormal range:
    no shift, or a shift by one bit. *)
Lemma shr_fexp_53 (m e : Z) (l : location) :
  (2 ^ 52 <= m < 2 ^ 53)%Z → -1000 ≤ e →
  shr_fexp prec emax m e l = (shr_record_of_loc m l, e).
Proof.
  intros Hm He. unfold shr_fexp.
  destruct m as [|p|p]; try lia.
  cbn [Zdigits2]. rewrite (digits2_pos_unique p 53) by lia.
  unfold fexp, emin, prec, emax. replace (Z.max (53 + e - 53) (3 - 1024 - 53) - e) with 0 by lia.
  reflexivity.
Qed.

Lemma shr_fexp_54 (m e : Z) (l : location) :
  (2 ^ 53 <= m < 2 ^ 54)%Z → -1000 ≤ e →
  shr_fexp prec emax m e l = (shr_1 (shr_record_of_loc m l), e + 1).
Proof.
  intros Hm He. unfold shr_fexp.
  destruct m as [|p|p]; try lia.
  cbn [Zdigits2]. rewrite (digits2_pos_unique p 54) by lia.
  unfold fexp, emin, prec, emax. replace (Z.max (54 + e - 53) (3 - 1024 - 53) - e) with 1 by lia.
  reflexivity.
Qed.

Lemma valid_binary_53 (m2 : positive) (e : Z) :
  (2 ^ 52 <= Z.pos m2 < 2 ^ 53)%Z → -1000 ≤ e ≤ 900 →
  SpecFloat.valid_binary prec emax (S754_finite false m2 e) = true.
Proof.
  intros Hm He. unfold SpecFloat.valid_binary, bounded, canonical_mantissa.
  rewrite (digits2_pos_unique m2 53) by lia.
  unfold fexp, emin, prec, emax. apply andb_true_iff. split; lia.
Qed.

(** The second pass of [binary_round_aux], which is exact. *)
Lemma round_second_pass (m1 e : Z) :
  (2 ^ 52 <= m1 <= 2 ^ 53)%Z → -1000 ≤ e ≤ 800 →
  ∃ (m2 : positive) (k : Z),
    (let '(mrs, e'') := shr_fexp prec emax m1 e loc_Exact in
     match shr_m mrs with
     | Z0 => S754_zero false
     | Zpos m => if Z.leb e'' (Z.sub emax prec) then S754_finite false m e''
                 else S754_infinity false
     | _ => S754_nan
     end) = S754_finite false m2 (e + k) ∧
    0 ≤ k ≤ 1 ∧ m1 = Z.pos m2 * 2 ^ k ∧
    SpecFloat.valid_binary prec emax (S754_finite false m2 (e + k)) = true.
Proof.
  intros Hm He. destruct (decide (m1 < 2 ^ 53)) as [Hlt|Hge].
  - rewrite shr_fexp_53 by lia. simpl shr_m.
    destruct m1 as [|m2|]; try lia.
    exists m2, 0. replace (e + 0) with e by lia.
    replace (e <=? emax - prec) with true by (unfold emax, prec; lia).
    repeat split; try lia. apply valid_binary_53; lia.
  - assert (m1 = 2 ^ 53) as -> by lia.
    rewrite shr_fexp_54 by lia. cbn [shr_record_of_loc shr_1 shr_m Z.pow Z.pow_pos Pos.iter Z.mul Pos.mul].
    eexists _, 1.
    replace (e + 1 <=? emax - prec) with true by (unfold emax, prec; lia).
    repeat split; try lia. apply valid_binary_53; lia.
Qed.

(** Rounding a quotient [q] of 53 or 54 bits: the result is the finite
    float [m2 * 2 ^ (e + t)], equal to [N * m1 * 2 ^ e] for a unit [N] of 1
    or 2, and [q] lies within one unit of it, strictly so on the lower
    side unless the division left a remainder. *)
Lemma binary_round_aux_faithful (q e : Z) (l : location) :
  (2 ^ 52 <= q < 2 ^ 54)%Z → -1000 ≤ e ≤ 700 →
  ∃ (m2 : positive) (t N m1 : Z),
    binary_round_aux prec emax false q e l = S754_finite false m2 (e + t) ∧
    SpecFloat.valid_binary prec emax (S754_finite false m2 (e + t)) = true ∧
    0 ≤ t ≤ 2 ∧ (N = 1 ∨ N = 2) ∧ N ≤ 2 ^ t ∧
    Z.pos m2 * 2 ^ t = N * m1 ∧
    (N * m1 - N < q ∨ N * m1 - N = q ∧ l ≠ loc_Exact) ∧
    q < N * m1 + N.
Proof.
  intros Hq He. unfold binary_round_aux.
  destruct (decide (q < 2 ^ 53)) as [Hlt|Hge].
  - rewrite shr_fexp_53 by lia.
    destruct (loc_of_shr_record_of_loc q l) as [-> ->].
    destruct (round_nearest_even_bounds q l) as [Hb Hex].
    set (m1 := round_nearest_even q l) in *.
    destruct (round_second_pass m1 e) as (m2 & k & -> & Hk & Hm1 & Hvalid); [lia | lia |].
    exists m2, k, 1, m1. split; [done|]. split; [done|].
    split; [lia|]. split; [by left|].
    split; [assert (k = 0 ∨ k = 1) as [->| ->] by lia; simpl; lia|].
    split; [lia|]. split; [|lia].
    destruct (decide (m1 = q)) as [->|Hne]; [left; lia|].
    right. split; [lia|]. intros Hl. by apply Hex in Hl.
  - rewrite shr_fexp_54 by lia.
    destruct (loc_of_shr_record_of_loc q l) as [Hloc Hm].
    destruct (shr_1_pos (shr_record_of_loc q l)) as [Hhalf Hexact]; [lia|].
    rewrite Hm, Hloc in *.
    set (mrs := shr_1 (shr_record_of_loc q l)) in *.
    destruct (round_nearest_even_bounds (shr_m mrs) (loc_of_shr_record mrs)) as [Hb Hex].
    set (m1 := round_nearest_even (shr_m mrs) (loc_of_shr_record mrs)) in *.
    assert (0 ≤ (if shr_r mrs then 1 else 0) ≤ 1) as Hbit by (destruct (shr_r mrs); lia).
    destruct (round_second_pass m1 (e + 1)) as (m2 & k & -> & Hk & Hm1 & Hvalid);
      [lia | lia |].
    exists m2, (1 + k), 2, m1. replace (e + (1 + k)) with (e + 1 + k) by lia.
    split; [done|]. split; [done|].
    split; [lia|]. split; [by right|].
    split; [assert (k = 0 ∨ k = 1) as [->| ->] by lia; simpl; lia|].
    split; [rewrite Z.pow_add_r by lia; lia|]. split; [|lia].
    destruct (decide (m1 = shr_m mrs)) as [Heq|Hne]; [left; lia|].
    destruct (shr_r mrs) eqn:Hr; [left; lia|].
    right. split; [lia|]. intros Hl.
    destruct (loc_of_shr_record mrs) eqn:Hlm.
    + apply Hne. by apply Hex.
    + subst l. clear -Hq Hge Hlm Hr. subst mrs.
      destruct q as [|[p|p|]|]; simpl in *; try lia; discriminate.
Qed.

Lemma digits2_pos_le_52 (p : positive) :
  Z.pos p < 2 ^ 52 → 1 ≤ Z.pos (digits2_pos p) ≤ 52.
Proof.
  intros Hp. rewrite digits2_pos_log2.
  pose proof (Z.log2_nonneg (Z.pos p)).
  assert (Z.log2 (Z.pos p) < 52) by (apply Z.log2_lt_pow2; lia). lia.
Qed.

Lemma new_location_exact (b r : Z) :
  new_location b r ≠ loc_Exact → r ≠ 0.
Proof.
  intros Hl ->. apply Hl. unfold new_location, new_location_even, new_location_odd.
  by destruct (Z.even b).
Qed.

(** *** The integer division inside [SFdiv] *)

(** For operands below [2 ^ 52] the dividend is shifted by [s] bits, with
    [2 <= s] and [2 * pb < 2 ^ s], and the quotient has 53 or 54 bits. *)
Lemma SFdiv_core_binary_spec (pa pb : positive) :
  Z.pos pa < 2 ^ 52 → Z.pos pb < 2 ^ 52 →
  ∃ s q r,
    SFdiv_core_binary prec emax (Z.pos pa) 0 (Z.pos pb) 0
      = (q, - s, new_location (Z.pos pb) r) ∧
    2 ≤ s ≤ 104 ∧
    Z.pos pa * 2 ^ s = Z.pos pb * q + r ∧ 0 ≤ r < Z.pos pb ∧
    (2 ^ 52 <= q < 2 ^ 54)%Z ∧ 2 * Z.pos pb < 2 ^ s.
Proof.
  intros Ha Hb. unfold SFdiv_core_binary. cbn [Zdigits2].
  pose proof (digits2_pos_le_52 pa Ha) as Hd1.
  pose proof (digits2_pos_le_52 pb Hb) as Hd2.
  pose proof (digits2_pos_bounds pa) as Ha'.
  pose proof (digits2_pos_bounds pb) as Hb'.
  set (d1 := Z.pos (digits2_pos pa)) in *. set (d2 := Z.pos (digits2_pos pb)) in *.
  unfold fexp, emin, prec, emax.
  replace (Z.min (Z.max (d1 + 0 - (d2 + 0) - 53) (3 - 1024 - 53)) (0 - 0))
    with (- (53 + d2 - d1)) by lia.
  replace (0 - 0 - - (53 + d2 - d1)) with (53 + d2 - d1) by lia.
  set (s := 53 + d2 - d1) in *.
  destruct s as [|ps|ps] eqn:Hs; try lia. rewrite <- Hs. clear ps Hs.
  rewrite Z.shiftl_mul_pow2 by lia.
  pose proof (Z_div_mod (Z.pos pa * 2 ^ s) (Z.pos pb) ltac:(lia)) as Hdiv.
  destruct (Z.div_eucl (Z.pos pa * 2 ^ s) (Z.pos pb)) as [q r]. destruct Hdiv as [Hdiv Hr].
  exists s, q, r. split; [done|]. split; [lia|]. split; [done|]. split; [lia|].
  assert (2 ^ s * 2 ^ (d1 - 1) = 2 ^ 53 * 2 ^ (d2 - 1)) as Hpow.
  { rewrite <- !Z.pow_add_r by lia. f_equal. lia. }
  assert (2 ^ d1 = 2 * 2 ^ (d1 - 1)) as Hp1.
  { replace d1 with (1 + (d1 - 1)) at 1 by lia. rewrite Z.pow_add_r by lia. done. }
  assert (2 ^ d2 = 2 * 2 ^ (d2 - 1)) as Hp2.
  { replace d2 with (1 + (d2 - 1)) at 1 by lia. rewrite Z.pow_add_r by lia. done. }
  assert (4 * 2 ^ (d2 - 1) ≤ 2 ^ s) as Hps.
  { replace (4 * 2 ^ (d2 - 1)) with (2 ^ (2 + (d2 - 1))) by (rewrite Z.pow_add_r by lia; done).
    apply Z.pow_le_mono_r; lia. }
  assert (0 < 2 ^ (d1 - 1)) by (apply Z.pow_pos_nonneg; lia).
  assert (0 < 2 ^ (d2 - 1)) by (apply Z.pow_pos_nonneg; lia).
  assert (0 < 2 ^ s) by (apply Z.pow_pos_nonneg; lia).
  set (A1 := 2 ^ (d1 - 1)) in *. set (B1 := 2 ^ (d2 - 1)) in *. set (P := 2 ^ s) in *.
  set (a := Z.pos pa) in *. set (b := Z.pos pb) in *.
  assert (0 ≤ q).
  { destruct (decide (0 ≤ q)); [done|]. assert (b * q ≤ - b) by nia. nia. }
  split; [|lia]. split.
  - destruct (decide (2 ^ 52 ≤ q)); [done|]. exfalso.
    assert (b * q + r < b * 2 ^ 52) by nia.
    assert (b * 2 ^ 52 < 2 ^ 53 * B1) by lia.
    assert (P * A1 ≤ a * P) by nia. lia.
  - destruct (decide (q < 2 ^ 54)); [done|]. exfalso.
    assert (b * 2 ^ 54 ≤ b * q) by nia.
    assert (a * P < 2 * A1 * P) by nia.
    assert (2 * A1 * P = 2 ^ 54 * B1) by lia.
    assert (2 ^ 54 * B1 ≤ b * 2 ^ 54) by lia. lia.
Qed.

(** *** The ceiling *)

(** [(a + b - 1) / b] is the ceiling of [a / b]. *)
Lemma ceil_div_bounds (a b : Z) :
  0 < b → ((a + b - 1) / b - 1) * b < a ≤ (a + b - 1) / b * b.
Proof.
  intros Hb. pose proof (Z.div_mod (a + b - 1) b ltac:(lia)).
  pose proof (Z.mod_pos_bound (a + b - 1) b Hb). nia.
Qed.

(** The arithmetic at the end: a mantissa [v] at exponent [t - s] that is
    within one unit of the quotient has the ceiling of the quotient. *)
Lemma ceil_of_faithful (a b q r s t N m1 v : Z) :
  0 < a → 0 < b → 2 ≤ s → 0 ≤ t ≤ 2 → (N = 1 ∨ N = 2) → N ≤ 2 ^ t →
  a * 2 ^ s = b * q + r → 0 ≤ r < b → 2 * b < 2 ^ s →
  v * 2 ^ t = N * m1 →
  (N * m1 - N < q ∨ N * m1 - N = q ∧ r ≠ 0) → q < N * m1 + N →
  let K := (a + b - 1) / b in
  (K - 1) * 2 ^ (s - t) < v ≤ K * 2 ^ (s - t).
Proof.
  intros Ha Hb Hs Ht HN HNt Hdiv Hr Hbs Hv Hlo Hhi K.
  pose proof (ceil_div_bounds a b Hb) as HK. fold K in HK.
  assert (2 ^ s = 2 ^ t * 2 ^ (s - t)) as HP.
  { rewrite <- Z.pow_add_r by lia. f_equal. lia. }
  assert (0 < 2 ^ (s - t)) as HW by (apply Z.pow_pos_nonneg; lia).
  set (W := 2 ^ (s - t)) in *. set (P := 2 ^ s) in *.
  assert (2 ^ t = 1 ∨ 2 ^ t = 2 ∨ 2 ^ t = 4) as HT.
  { assert (t = 0 ∨ t = 1 ∨ t = 2) as [->|[->| ->]] by lia; simpl; lia. }
  set (T := 2 ^ t) in *.
  assert ((N * m1 - N) * b < a * P) as Hlow.
  { rewrite Hdiv. destruct Hlo as [Hlt|[-> Hne]]; nia. }
  assert (a * P < (N * m1 + N) * b) as Hup by (rewrite Hdiv; nia).
  assert (1 ≤ K) as HK1 by nia.
  split.
  - (* v > (K - 1) W *)
    assert ((K - 1) * b * P + P ≤ a * P) by nia.
    assert ((K - 1) * b * P + N * b < (N * m1 + N) * b) by nia.
    assert ((K - 1) * P < N * m1) by nia.
    nia.
  - (* v ≤ K W *)
    assert (a * P ≤ K * b * P) by nia.
    assert ((N * m1 - N) * b < K * P * b) by nia.
    assert (N * m1 - N < K * P) by nia.
    destruct HN as [->| ->]; destruct HT as [HT|[HT|HT]]; rewrite HT in *; nia.
Qed.

(** [math.ceil(a / b)] is the ceiling of the exact quotient for operands
    below [2 ^ 52]. *)
Lemma truediv_ceil_exact (a b : Z) :
  0 ≤ a < 2 ^ 52 → 0 < b < 2 ^ 52 →
  truediv a b ≫= math_ceil = Ok ((a + b - 1) / b).
Proof.
  intros Ha Hb. unfold truediv. destruct (Z.eqb_spec b 0) as [->|Hb0]; [lia|].
  destruct b as [|pb|pb]; try lia. destruct a as [|pa|pa]; try lia.
  { cbn. f_equal. symmetry. apply Z.div_small. lia. }
  cbn [int_SF SFdiv xorb].
  destruct (SFdiv_core_binary_spec pa pb) as (s & q & r & -> & Hs & Hdiv & Hr & Hq & Hbs);
    [lia | lia |].
  destruct (binary_round_aux_faithful q (- s) (new_location (Z.pos pb) r))
    as (m2 & t & N & m1 & -> & Hvalid & Ht & HN & HNt & Hm & Hlo & Hhi); [lia | lia |].
  rewrite bind_Ok. unfold math_ceil. rewrite (Prim2SF_SF2Prim _ Hvalid).
  assert ((((Z.pos pa + Z.pos pb - 1) / Z.pos pb) - 1) * 2 ^ (s - t) < Z.pos m2
          ≤ (Z.pos pa + Z.pos pb - 1) / Z.pos pb * 2 ^ (s - t)) as Hceil.
  { apply (ceil_of_faithful (Z.pos pa) (Z.pos pb) q r s t N m1 (Z.pos m2)); try lia.
    destruct Hlo as [?|[? Hl]]; [by left|]. right. split; [done|].
    by apply new_location_exact in Hl. }
  set (K := (Z.pos pa + Z.pos pb - 1) / Z.pos pb) in *.
  f_equal. destruct (Z.leb_spec 0 (- s + t)) as [He|He].
  - assert (s = t) as -> by lia. replace (- t + t) with 0 by lia.
    replace (t - t) with 0 in Hceil by lia. simpl in *. lia.
  - replace (- (- s + t)) with (s - t) by lia.
    assert (0 < 2 ^ (s - t)) as HW by (apply Z.pow_pos_nonneg; lia).
    set (W := 2 ^ (s - t)) in *.
    assert (- Z.pos m2 / W = - K) as Hq'.
    { symmetry. apply (Z.div_unique (- Z.pos m2) W (- K) (K * W - Z.pos m2)); [left; lia | lia]. }
    rewrite Hq'. lia.
Qed.

(** ** Adapter, fit, save and load *)

Section ModelProperties.

Context {Net UserObj : Type}.
Variable make_encoder_model : Z → Z → Z → Net.
Variable make_step_decoder_model : Z → Z → Z → Net.
Variable make_attention_model : Z → Z → Net.
Variable compute_output_shape : Z * Z * Z → Z * Z.

Local Abbreviation Model := (@EncoderDecoder.Model Net).
Local Abbreviation FS := (@EncoderDecoder.FS Net).
Local Abbreviation __init__ :=
  (EncoderDecoder.__init__ make_encoder_model make_step_decoder_model
     make_attention_model compute_output_shape).
Local Abbreviation load :=
  (EncoderDecoder.load make_encoder_model make_step_decoder_model
     make_attention_model compute_output_shape).
Local Abbreviation call_cls :=
  (EncoderDecoder.call_cls make_encoder_model make_step_decoder_model
     make_attention_model compute_output_shape).

Lemma init_fields (height units output_size max_image_width max_text_length sos eos : Z) :
  let self := __init__ height units output_size max_image_width max_text_length sos eos in
  EncoderDecoder._height self = height ∧
  EncoderDecoder._units self = units ∧
  EncoderDecoder._output_size self = output_size ∧
  EncoderDecoder._max_image_width self = max_image_width ∧
  EncoderDecoder._max_text_length self = max_text_length ∧
  EncoderDecoder._sos self = sos ∧
  EncoderDecoder._eos self = eos ∧
  EncoderDecoder._num_output_tokens self = output_size ∧
  EncoderDecoder._preprocessing_options self = JDict ∅.
Proof.
  unfold EncoderDecoder.__init__.
  destruct (compute_output_shape _) as [num_activations w]. simpl. repeat split.
Qed.

(** C8. [get_adapter] passes the model's own [sos], [eos],
    [num_output_tokens] and [max_image_width], and [max_text_length - 1]
    as the text length; for a model made by [__init__] the number of output
    tokens is its [output_size]. *)
Theorem get_adapter_arguments :
  (∀ self : Model,
     EncoderDecoder.get_adapter self
     = Adapter.mk (EncoderDecoder._sos self) (EncoderDecoder._eos self)
         (EncoderDecoder._num_output_tokens self)
         (EncoderDecoder._max_image_width self)
         (EncoderDecoder._max_text_length self - 1)) ∧
  (∀ height units output_size max_image_width max_text_length sos eos,
     EncoderDecoder.get_adapter
       (__init__ height units output_size max_image_width max_text_length sos eos)
     = Adapter.mk sos eos output_size max_image_width (max_text_length - 1)).
Proof.
  split; [reflexivity|].
  intros height units output_size max_image_width max_text_length sos eos.
  destruct (init_fields height units output_size max_image_width max_text_length sos eos)
    as (_ & _ & _ & Hw & Ht & Hs & He & Hn & _).
  unfold EncoderDecoder.get_adapter. by rewrite Hw, Ht, Hs, He, Hn.
Qed.

(** *** fit *)

(** C9. When [fit] gets as far as training, it has passed as
    [steps_per_epoch] the ceiling of the binary64 quotient
    [size / batch_size] of the training generator, and as
    [validation_steps] that of the validation generator. For a generator
    with [0 <= size < 2 ^ 52] and [0 < batch_size < 2 ^ 52] this is the
    ceiling of the exact quotient, the integer [k] with
    [(k - 1) * batch_size < size <= k * batch_size]. [fit] has compiled
    with the loss ['categorical_crossentropy'], and made its own Adam
    optimizer with learning rate 0.001 exactly when [compilation_params]
    has no ['optimizer'] entry, taking the entry otherwise. *)
Theorem fit_calls (self : Model) (train_generator val_generator : Generator)
    (compilation_params training_params : option (gmap string UserObj))
    (run : @EncoderDecoder.TrainingRun UserObj) :
  EncoderDecoder.fit self train_generator val_generator compilation_params training_params
    = Ok run →
  truediv (size train_generator) (batch_size train_generator) ≫= math_ceil
    = Ok (EncoderDecoder.fit_steps_per_epoch run) ∧
  truediv (size val_generator) (batch_size val_generator) ≫= math_ceil
    = Ok (EncoderDecoder.fit_validation_steps run) ∧
  (0 ≤ size train_generator < 2 ^ 52 → 0 < batch_size train_generator < 2 ^ 52 →
   (EncoderDecoder.fit_steps_per_epoch run - 1) * batch_size train_generator
     < size train_generator
     ≤ EncoderDecoder.fit_steps_per_epoch run * batch_size train_generator) ∧
  (0 ≤ size val_generator < 2 ^ 52 → 0 < batch_size val_generator < 2 ^ 52 →
   (EncoderDecoder.fit_validation_steps run - 1) * batch_size val_generator
     < size val_generator
     ≤ EncoderDecoder.fit_validation_steps run * batch_size val_generator) ∧
  EncoderDecoder.compile_loss run = "categorical_crossentropy" ∧
  (EncoderDecoder.compile_optimizer run = EncoderDecoder.Adam 0.001
   ↔ default ∅ compilation_params !! "optimizer" = None) ∧
  (∀ o, default ∅ compilation_params !! "optimizer" = Some o →
        EncoderDecoder.compile_optimizer run = EncoderDecoder.given_optimizer o) ∧
  EncoderDecoder.training_model run = EncoderDecoder._create_training_model self.
Proof.
  unfold EncoderDecoder.fit. intros H.
  apply bind_Ok_inv in H as (q & Hq & H).
  apply bind_Ok_inv in H as (steps & Hsteps & H).
  apply bind_Ok_inv in H as (q' & Hq' & H).
  apply bind_Ok_inv in H as (vsteps & Hvsteps & H).
  assert (truediv (size train_generator) (batch_size train_generator) ≫= math_ceil
          = Ok steps) as Htrain by (by rewrite Hq).
  assert (truediv (size val_generator) (batch_size val_generator) ≫= math_ceil
          = Ok vsteps) as Hval by (by rewrite Hq').
  destruct (bool_decide _) in H; [discriminate|].
  injection H as <-. simpl.
  split; [done|]. split; [done|]. split; [|split].
  - intros Hsize Hbatch. rewrite truediv_ceil_exact in Htrain by done.
    injection Htrain as <-. apply ceil_div_bounds. lia.
  - intros Hsize Hbatch. rewrite truediv_ceil_exact in Hval by done.
    injection Hval as <-. apply ceil_div_bounds. lia.
  - repeat split; try done.
    + destruct (default ∅ compilation_params !! "optimizer"); [discriminate | done].
    + intros ->. done.
    + intros o ->. done.
Qed.

(** *** save and load *)

Lemma os_path_join_inj (path : string) : Inj (=) (=) (EncoderDecoder.os_path_join path).
Proof.
  intros a b. unfold EncoderDecoder.os_path_join.
  destruct (bool_decide (path = "")); [done|].
  destruct (EncoderDecoder.ends_with_slash path); intros H.
  - by apply String.app_inj in H.
  - apply String.app_inj in H. by apply (String.app_inj "/") in H.
Qed.

Lemma os_path_join_ne (path a b : string) :
  a ≠ b → EncoderDecoder.os_path_join path a ≠ EncoderDecoder.os_path_join path b.
Proof. intros Hne H. by apply os_path_join_inj in H. Qed.

Lemma write_file_inv (p : string) (content : EncoderDecoder.File) (fs fs' : FS) :
  EncoderDecoder.write_file p content fs = Ok fs' →
  (p ∉ EncoderDecoder.dirs fs) ∧
  fs' = EncoderDecoder.mkFS (EncoderDecoder.dirs fs)
          (<[p := content]> (EncoderDecoder.files fs)).
Proof.
  unfold EncoderDecoder.write_file. case_bool_decide; [discriminate|].
  by intros [= <-].
Qed.

Lemma read_file_lookup (p : string) (content : EncoderDecoder.File) (fs : FS) :
  p ∉ EncoderDecoder.dirs fs →
  EncoderDecoder.files fs !! p = Some content →
  EncoderDecoder.read_file p fs = Ok content.
Proof.
  intros Hd Hf. unfold EncoderDecoder.read_file.
  rewrite bool_decide_eq_false_2 by done. by rewrite Hf.
Qed.

Lemma load_model_lookup (p : string) (net : Net) (fs : FS) :
  p ∉ EncoderDecoder.dirs fs →
  EncoderDecoder.files fs !! p = Some (EncoderDecoder.ModelFile net) →
  EncoderDecoder.load_model p fs = Ok net.
Proof.
  intros Hd Hf. unfold EncoderDecoder.load_model.
  by rewrite (read_file_lookup p (EncoderDecoder.ModelFile net)).
Qed.

(** The keyword arguments that [save] writes are accepted by [__init__]
    and give the attributes back. *)
Lemma call_cls_model_params (height units output_size max_image_width max_text_length
    sos eos : Z) :
  call_cls (JDict (<["height" := JInt height]>
                  (<["units" := JInt units]>
                  (<["output_size" := JInt output_size]>
                  (<["max_image_width" := JInt max_image_width]>
                  (<["max_text_length" := JInt max_text_length]>
                  (<["sos" := JInt sos]>
                  (<["eos" := JInt eos]> ∅))))))))
  = Ok (__init__ height units output_size max_image_width max_text_length sos eos).
Proof.
  unfold EncoderDecoder.call_cls.
  rewrite bool_decide_eq_true_2.
  - unfold EncoderDecoder.int_argument. by simplify_map_eq.
  - rewrite !dom_insert_L, dom_empty_L. reflexivity.
Qed.

Lemma getitem_params (name model_params preprocessing_params : JSON) :
  EncoderDecoder.getitem
    (JDict (<["name" := name]>
           (<["params" := model_params]>
           (<["preprocessing" := preprocessing_params]> ∅)))) "params"
  = Ok model_params.
Proof. unfold EncoderDecoder.getitem. by simplify_map_eq. Qed.

Lemma getitem_preprocessing (name model_params preprocessing_params : JSON) :
  EncoderDecoder.getitem
    (JDict (<["name" := name]>
           (<["params" := model_params]>
           (<["preprocessing" := preprocessing_params]> ∅)))) "preprocessing"
  = Ok preprocessing_params.
Proof. unfold EncoderDecoder.getitem. by simplify_map_eq. Qed.

(** C7. When [save] has written a model to [path], [load] of that path
    succeeds, and the instance it returns has the seven configuration
    attributes of the saved model, the preprocessing parameters that were
    saved, and the three saved networks. *)
Theorem save_load_roundtrip (self : Model) (path : string) (preprocessing_params : JSON)
    (fs fs' : FS) :
  EncoderDecoder.save self path preprocessing_params fs = Ok fs' →
  ∃ instance,
    load path fs' = Ok instance ∧
    EncoderDecoder._height instance = EncoderDecoder._height self ∧
    EncoderDecoder._units instance = EncoderDecoder._units self ∧
    EncoderDecoder._output_size instance = EncoderDecoder._output_size self ∧
    EncoderDecoder._max_image_width instance = EncoderDecoder._max_image_width self ∧
    EncoderDecoder._max_text_length instance = EncoderDecoder._max_text_length self ∧
    EncoderDecoder._sos instance = EncoderDecoder._sos self ∧
    EncoderDecoder._eos instance = EncoderDecoder._eos self ∧
    EncoderDecoder._preprocessing_options instance = preprocessing_params ∧
    EncoderDecoder._encoder instance = EncoderDecoder._encoder self ∧
    EncoderDecoder._decoder instance = EncoderDecoder._decoder self ∧
    EncoderDecoder._attention instance = EncoderDecoder._attention self.
Proof.
  unfold EncoderDecoder.save. intros H.
  apply bind_Ok_inv in H as (fs0 & _ & H).
  apply bind_Ok_inv in H as (fs1 & H1 & H).
  apply bind_Ok_inv in H as (fs2 & H2 & H).
  apply bind_Ok_inv in H as (fs3 & H3 & H4).
  apply write_file_inv in H1 as [Hd1 ->].
  apply write_file_inv in H2 as [Hd2 ->].
  apply write_file_inv in H3 as [Hd3 ->].
  apply write_file_inv in H4 as [Hd4 ->].
  cbn [EncoderDecoder.dirs EncoderDecoder.files] in *.
  pose proof (os_path_join_ne path "params.json" "encoder.h5" ltac:(done)).
  pose proof (os_path_join_ne path "params.json" "decoder.h5" ltac:(done)).
  pose proof (os_path_join_ne path "params.json" "attention.h5" ltac:(done)).
  pose proof (os_path_join_ne path "encoder.h5" "decoder.h5" ltac:(done)).
  pose proof (os_path_join_ne path "encoder.h5" "attention.h5" ltac:(done)).
  pose proof (os_path_join_ne path "decoder.h5" "attention.h5" ltac:(done)).
  unfold EncoderDecoder.load, EncoderDecoder.read_json.
  erewrite (read_file_lookup (EncoderDecoder.os_path_join path "params.json"));
    [| done | by simplify_map_eq].
  rewrite bind_Ok, bind_Ok, getitem_params, bind_Ok, call_cls_model_params, bind_Ok.
  erewrite (load_model_lookup (EncoderDecoder.os_path_join path "encoder.h5"));
    [| done | by simplify_map_eq].
  rewrite bind_Ok.
  erewrite (load_model_lookup (EncoderDecoder.os_path_join path "decoder.h5"));
    [| done | by simplify_map_eq].
  rewrite bind_Ok.
  erewrite (load_model_lookup (EncoderDecoder.os_path_join path "attention.h5"));
    [| done | by simplify_map_eq].
  rewrite bind_Ok, getitem_preprocessing, bind_Ok.
  eexists. split; [reflexivity|].
  destruct (init_fields (EncoderDecoder._height self) (EncoderDecoder._units self)
              (EncoderDecoder._output_size self) (EncoderDecoder._max_image_width self)
              (EncoderDecoder._max_text_length self) (EncoderDecoder._sos self)
              (EncoderDecoder._eos self))
    as (? & ? & ? & ? & ? & ? & ? & _).
  cbn [EncoderDecoder._height EncoderDecoder._units EncoderDecoder._output_size
       EncoderDecoder._max_image_width EncoderDecoder._max_text_length
       EncoderDecoder._sos EncoderDecoder._eos EncoderDecoder._preprocessing_options
       EncoderDecoder._encoder EncoderDecoder._decoder EncoderDecoder._attention].
  repeat split; done.
Qed.

End ModelProperties.

(** The quotient is a binary64 value before [math.ceil] sees it. *)
Example ceil_of_quotients :
  truediv 10 3 ≫= math_ceil = Ok 4 ∧
  truediv 9 3 ≫= math_ceil = Ok 3 ∧
  truediv 0 7 ≫= math_ceil = Ok 0 ∧
  truediv (-7) 2 ≫= math_ceil = Ok (-3) ∧
  truediv 5 0 ≫= math_ceil = Raise ZeroDivisionError ∧
  truediv (2 ^ 53 + 1) 1 ≫= math_ceil = Ok (2 ^ 53).
Proof. repeat split. Qed.

(** [fit] on the scripted model, with generators of 10 and 9 examples in
    batches of 3: 4 and 3 steps. *)
Lemma fit_calls_witness :
  ∃ run, Scripted.fit_result = Ok run ∧
    (truediv 10 3 ≫= math_ceil = Ok (EncoderDecoder.fit_steps_per_epoch run) ∧
     truediv 9 3 ≫= math_ceil = Ok (EncoderDecoder.fit_validation_steps run) ∧
     (0 ≤ 10 < 2 ^ 52 → 0 < 3 < 2 ^ 52 →
      (EncoderDecoder.fit_steps_per_epoch run - 1) * 3 < 10
        ≤ EncoderDecoder.fit_steps_per_epoch run * 3) ∧
     (0 ≤ 9 < 2 ^ 52 → 0 < 3 < 2 ^ 52 →
      (EncoderDecoder.fit_validation_steps run - 1) * 3 < 9
        ≤ EncoderDecoder.fit_validation_steps run * 3) ∧
     EncoderDecoder.compile_loss run = "categorical_crossentropy" ∧
     (EncoderDecoder.compile_optimizer run = EncoderDecoder.Adam 0.001
      ↔ default (∅ : gmap string unit) None !! "optimizer" = None) ∧
     (∀ o, default (∅ : gmap string unit) None !! "optimizer" = Some o →
           EncoderDecoder.compile_optimizer run = EncoderDecoder.given_optimizer o) ∧
     EncoderDecoder.training_model run
       = EncoderDecoder._create_training_model Scripted.model).
Proof.
  eexists. split; [reflexivity|].
  apply (fit_calls Scripted.model Scripted.train_generator Scripted.val_generator
           None None).
  reflexivity.
Defined.

(** C9, the claim as the specification states it: with 2 ^ 54 + 2 examples
    in batches of 2 the exact quotient 2 ^ 53 + 1 is no binary64 value; it
    is rounded to 2 ^ 53, and [fit] trains with 2 ^ 53 steps an epoch,
    which do not cover the examples. *)
Lemma fit_steps_below_ceiling :
  ∃ run : @EncoderDecoder.TrainingRun unit,
    EncoderDecoder.fit Scripted.model (mkGenerator (2 ^ 54 + 2) 2) Scripted.val_generator
      None None = Ok run ∧
    EncoderDecoder.fit_steps_per_epoch run = 2 ^ 53 ∧
    ¬ (2 ^ 54 + 2 ≤ EncoderDecoder.fit_steps_per_epoch run * 2).
Proof.
  eexists. split; [vm_compute; reflexivity|]. split; [reflexivity|].
  cbn [EncoderDecoder.fit_steps_per_epoch]. lia.
Qed.

(** The scripted model saved to an empty file system and loaded again. *)
Lemma save_load_roundtrip_witness :
  ∃ instance,
    Scripted.load "model" Scripted.saved_fs = Ok instance ∧
    EncoderDecoder._height instance = EncoderDecoder._height Scripted.model ∧
    EncoderDecoder._units instance = EncoderDecoder._units Scripted.model ∧
    EncoderDecoder._output_size instance = EncoderDecoder._output_size Scripted.model ∧
    EncoderDecoder._max_image_width instance
      = EncoderDecoder._max_image_width Scripted.model ∧
    EncoderDecoder._max_text_length instance
      = EncoderDecoder._max_text_length Scripted.model ∧
    EncoderDecoder._sos instance = EncoderDecoder._sos Scripted.model ∧
    EncoderDecoder._eos instance = EncoderDecoder._eos Scripted.model ∧
    EncoderDecoder._preprocessing_options instance = Scripted.preprocessing ∧
    EncoderDecoder._encoder instance = EncoderDecoder._encoder Scripted.model ∧
    EncoderDecoder._decoder instance = EncoderDecoder._decoder Scripted.model ∧
    EncoderDecoder._attention instance = EncoderDecoder._attention Scripted.model.
Proof.
  apply (save_load_roundtrip Scripted.make_encoder_model Scripted.make_step_decoder_model
           Scripted.make_attention_model Scripted.compute_output_shape
           Scripted.model "model" Scripted.preprocessing Scripted.empty_fs
           Scripted.saved_fs).
  vm_compute. reflexivity.
Defined.

(** ** The inference model of an instance *)

Section InstanceInference.

Context {Image Activations State Net : Type}.
Variable call_encoder : Net → Image → Activations * State * State.
Variable call_attention : Net → Activations → State → State → list float.
Variable call_decoder : Net → list float → State → State → list float * State * State.
Variable make_encoder_model : Z → Z → Z → Net.
Variable make_step_decoder_model : Z → Z → Z → Net.
Variable make_attention_model : Z → Z → Net.
Variable compute_output_shape : Z * Z * Z → Z * Z.

(** X7. The labels decoded by a model that [__init__] made are codes below its
    [output_size], whatever networks it holds by then. *)
Lemma instance_labels_below_output_size
    (height units output_size max_image_width max_text_length sos eos : Z)
    (fuel : nat) (x : Image) (sos' eos' : Z) (ls : list Z) :
  EncoderDecoder.inference_model call_encoder call_attention call_decoder
    (EncoderDecoder.__init__ make_encoder_model make_step_decoder_model
       make_attention_model compute_output_shape
       height units output_size max_image_width max_text_length sos eos)
    fuel x sos' eos' = Some (Ok ls) →
  Forall (λ code, 0 ≤ code < output_size) ls.
Proof.
  unfold EncoderDecoder.inference_model. intros H.
  apply predict_range in H.
  destruct (init_fields make_encoder_model make_step_decoder_model make_attention_model
              compute_output_shape height units output_size max_image_width
              max_text_length sos eos) as (_ & _ & _ & _ & _ & _ & _ & Hn & _).
  by rewrite Hn in H.
Qed.

End InstanceInference.

(** * Further properties *)

(** ** Errors and edge cases of the inference loop *)

Section InferenceModelEdgeCases.

Context {Image Activations State : Type}.
Variable encoder : Image → Activations * State * State.
Variable attention : Activations → State → State → list float.
Variable decoder : list float → State → State → list float * State * State.
Variable n : Z.

Local Abbreviation fresh_y_prev := (InferenceModel.fresh_y_prev n).
Local Abbreviation decode_step := (InferenceModel.decode_step attention decoder n).
Local Abbreviation loop_body := (InferenceModel.loop_body attention decoder n).
Local Abbreviation while_true := (InferenceModel.while_true attention decoder n).
Local Abbreviation argmax_codes := (InferenceModel.argmax_codes attention decoder n).
Local Abbreviation predict_single_output :=
  (InferenceModel.predict_single_output encoder attention decoder n).
Local Abbreviation LoopState := (@InferenceModel.LoopState State).
Local Abbreviation mkLoop := (@InferenceModel.mkLoop State).
Local Abbreviation labels := (@InferenceModel.labels State).

Lemma fresh_y_prev_negative_size (i : Z) :
  n < 0 → fresh_y_prev i = Raise ValueError.
Proof.
  intros Hn. unfold InferenceModel.fresh_y_prev, Numpy.zeros.
  by replace (n <? 0) with true by lia.
Qed.

Lemma fresh_y_prev_out_of_range (i : Z) :
  0 ≤ n → ¬ (- n ≤ i < n) → fresh_y_prev i = Raise IndexError.
Proof.
  intros Hn Hi. unfold InferenceModel.fresh_y_prev, Numpy.zeros.
  replace (n <? 0) with false by lia. rewrite bind_Ok.
  unfold Numpy.setitem, Numpy.index. rewrite length_replicate.
  destruct (Z.leb_spec 0 i); destruct (Z.ltb_spec i (Z.of_nat (Z.to_nat n)));
    destruct (Z.leb_spec (- Z.of_nat (Z.to_nat n)) i); destruct (Z.ltb_spec i 0);
    simpl; try reflexivity; exfalso; lia.
Qed.

(** The row of lines 26-27 and 41-42, entry by entry; a negative index
    counts from the end. *)
Lemma fresh_y_prev_entries (i : Z) (yp : list float) :
  fresh_y_prev i = Ok yp →
  let k := Z.to_nat (if 0 <=? i then i else n + i) in
  length yp = Z.to_nat n ∧ (k < Z.to_nat n)%nat ∧
  ∀ j, (j < Z.to_nat n)%nat →
       yp !! j = Some (if decide (j = k) then PrimFloat.one else PrimFloat.zero).
Proof.
  unfold InferenceModel.fresh_y_prev, Numpy.zeros.
  destruct (n <? 0) eqn:Hn; [discriminate|]. rewrite bind_Ok.
  unfold Numpy.setitem. intros H. apply bind_Ok_inv in H as (k' & Hk & [= <-]).
  unfold Numpy.index in Hk. rewrite length_replicate in Hk.
  assert (k' = Z.to_nat (if 0 <=? i then i else n + i) ∧ (k' < Z.to_nat n)%nat)
    as [-> Hlt].
  { destruct (Z.leb_spec 0 i); destruct (Z.ltb_spec i (Z.of_nat (Z.to_nat n)));
      destruct (Z.leb_spec (- Z.of_nat (Z.to_nat n)) i); destruct (Z.ltb_spec i 0);
      simpl in Hk; try discriminate; try (exfalso; lia);
      injection Hk as <-; split; try lia; f_equal; lia. }
  cbv zeta. split; [by rewrite length_insert, length_replicate|].
  split; [done|]. intros j Hj. case_decide as Hjk.
  - subst j. apply list_lookup_insert_eq. by rewrite length_replicate.
  - rewrite list_lookup_insert_ne by done. by apply lookup_replicate_2.
Qed.

(** X1. The start token is checked before anything is decoded: once the
    encoder has returned, a negative number of output tokens makes the call
    raise [ValueError], and for a number of output tokens from 0 to
    [2 ^ 20], a row that [np.zeros] allocates, a start token [sos] that is
    a 64-bit integer outside [-n, n) makes it raise [IndexError]. *)
Theorem predict_rejects_bad_sos (fuel : nat) (x : Image) (sos eos : Z) :
  (n < 0 → predict_single_output fuel x sos eos = Some (Raise ValueError)) ∧
  (0 ≤ n ≤ 2 ^ 20 → - 2 ^ 63 ≤ sos < 2 ^ 63 → ¬ (- n ≤ sos < n) →
   predict_single_output fuel x sos eos = Some (Raise IndexError)).
Proof.
  unfold InferenceModel.predict_single_output.
  destruct (encoder x) as [[acts h] c]. split.
  - intros Hn. by rewrite fresh_y_prev_negative_size.
  - intros [Hn _] _ Hs. by rewrite fresh_y_prev_out_of_range.
Qed.

Lemma while_true_invalid_eos (sos eos : Z) (acts : Activations) :
  ¬ (0 ≤ eos < n) →
  ∀ fuel st ls,
    (length (labels st) ≤ 101)%nat →
    while_true fuel sos eos acts st = Some (Ok ls) → length ls = 101%nat.
Proof.
  intros Heos. induction fuel as [|fuel IH]; intros st ls Hlen; simpl; [discriminate|].
  destruct (loop_body sos eos acts st) as [fl|e] eqn:Hb; [|discriminate].
  apply loop_body_inv in Hb as (code & yp' & h' & c' & Hd & Hcases).
  apply decode_step_inv in Hd as [Hrange _].
  destruct Hcases as [[Hstop ->]|[(_ & _ & _ & ->)|(_ & Hl & _ & ->)]].
  - intros [= <-]. destruct Hstop as [->|?]; [done | lia].
  - apply IH. done.
  - apply IH. simpl. rewrite length_app. simpl. lia.
Qed.

(** X2. When [eos] is not a code the decoder can produce (it is negative,
    or not below the number of output tokens), the loop can only leave
    through the length test: every label sequence the call returns has
    exactly 101 entries. *)
Theorem invalid_eos_fills_cap (fuel : nat) (x : Image) (sos eos : Z) (ls : list Z) :
  ¬ (0 ≤ eos < n) →
  predict_single_output fuel x sos eos = Some (Ok ls) →
  length ls = 101%nat.
Proof.
  intros Heos. unfold InferenceModel.predict_single_output.
  destruct (encoder x) as [[acts h] c].
  destruct (fresh_y_prev sos) as [yp|e]; [|discriminate].
  apply (while_true_invalid_eos sos eos acts Heos). simpl. lia.
Qed.

Lemma loop_body_raise (sos eos : Z) (acts : Activations) (st : LoopState) (e : PyError) :
  decode_step acts (InferenceModel.y_prev st) (InferenceModel.state_h st)
    (InferenceModel.state_c st) = Raise e →
  loop_body sos eos acts st = Raise e.
Proof. unfold InferenceModel.loop_body. by intros ->. Qed.

(** X3. What a pass of the loop raises. An empty distribution is a
    [ValueError] of [argmax]. A distribution whose argmax is not below the
    number of output tokens is an [IndexError] of the assignment to
    [y_prev], raised before the code is compared with [eos]: it is raised
    even when that code is [eos]. Either error leaves the loop at once. *)
Theorem step_errors (sos eos : Z) (acts : Activations) (st : LoopState)
    (pmf : list float) (h' c' : State) (fuel : nat) :
  decoder (attention acts (InferenceModel.state_h st) (InferenceModel.state_c st)
             ++ InferenceModel.y_prev st)
    (InferenceModel.state_h st) (InferenceModel.state_c st) = (pmf, h', c') →
  (pmf = [] → while_true (S fuel) sos eos acts st = Some (Raise ValueError)) ∧
  (∀ code, Numpy.argmax pmf = Ok code → 0 ≤ n ≤ code →
           while_true (S fuel) sos eos acts st = Some (Raise IndexError)).
Proof.
  intros Hdec. split.
  - intros ->. simpl. rewrite (loop_body_raise sos eos acts st ValueError); [done|].
    unfold InferenceModel.decode_step. by rewrite Hdec.
  - intros code Hcode Hrange. simpl.
    rewrite (loop_body_raise sos eos acts st IndexError); [done|].
    unfold InferenceModel.decode_step. rewrite Hdec, Hcode, bind_Ok.
    rewrite fresh_y_prev_out_of_range; [done | lia | lia].
Qed.

(** X4. The row that is fed back to the decoder is one-hot: when a
    decoding step does not raise, the next [y_prev] has as many entries as
    there are output tokens, 1.0 at the argmax code and 0.0 everywhere
    else. *)
Theorem y_prev_is_one_hot (acts : Activations) (yp : list float) (h c : State)
    (code : Z) (yp' : list float) (h' c' : State) :
  decode_step acts yp h c = Ok (code, yp', h', c') →
  length yp' = Z.to_nat n ∧
  yp' !! Z.to_nat code = Some PrimFloat.one ∧
  ∀ j, (j < Z.to_nat n)%nat → j ≠ Z.to_nat code → yp' !! j = Some PrimFloat.zero.
Proof.
  intros Hd. pose proof (decode_step_inv attention decoder n _ _ _ _ _ _ _ _ Hd) as [Hr _].
  unfold InferenceModel.decode_step in Hd.
  destruct (decoder _ h c) as [[pmf h1] c1].
  apply bind_Ok_inv in Hd as (k & Hk & Hd).
  apply bind_Ok_inv in Hd as (y & Hy & Hd). simplify_eq.
  apply fresh_y_prev_entries in Hy. cbv zeta in Hy.
  replace (0 <=? code) with true in Hy by lia.
  destruct Hy as (Hlen & Hlt & Hall). split; [done|]. split.
  - rewrite Hall by done. by rewrite decide_True.
  - intros j Hj Hne. rewrite Hall by done. by rewrite decide_False.
Qed.

Lemma argmax_codes_range (acts : Activations) (k : nat) :
  ∀ yp h c, Forall (λ code, 0 ≤ code < n) (argmax_codes k acts yp h c).
Proof.
  induction k as [|k IH]; intros yp h c; simpl; [constructor|].
  destruct (decode_step acts yp h c) as [[[[code yp'] h'] c']|e] eqn:Hd; [|constructor].
  constructor; [|apply IH].
  by apply decode_step_inv in Hd as [? _].
Qed.

(** X5. A negative [sos] is accepted as an index from the end, but no
    argmax code is ever equal to it: nothing is skipped. When the decoder
    produces the codes [cs] and then [eos] for the first time, the call
    returns the first 101 codes of [cs]. *)
Theorem negative_sos_never_skips (x : Image) (acts : Activations) (h c : State)
    (yp : list float) (sos eos : Z) (cs : list Z) (fuel : nat) :
  sos < 0 →
  encoder x = (acts, h, c) →
  fresh_y_prev sos = Ok yp →
  argmax_codes (S (length cs)) acts yp h c = cs ++ [eos] →
  eos ∉ cs →
  (length cs < fuel)%nat →
  predict_single_output fuel x sos eos = Some (Ok (take 101 cs)).
Proof.
  intros Hs Henc Hy Hcodes Hno Hfuel.
  rewrite (predict_codes encoder attention decoder n sos eos x acts h c yp cs eos fuel);
    try done; [|by left].
  pose proof (argmax_codes_range acts (S (length cs)) yp h c) as Hall.
  rewrite Hcodes in Hall. apply Forall_app in Hall as [Hall _].
  do 3 f_equal. clear -Hall Hs.
  induction Hall as [|code l Hcode _ IH]; [done|].
  rewrite filter_cons_True by lia. by rewrite IH.
Qed.

End InferenceModelEdgeCases.

(** The start token 5 is not an index of a row of five entries, and a row
    of -1 entries cannot be made. *)
Lemma predict_rejects_bad_sos_witness :
  InferenceModel.predict_single_output Scripted.encoder Scripted.attention
    Scripted.decoder (-1) 0 (Scripted.script [] 2) 0 1 = Some (Raise ValueError) ∧
  InferenceModel.predict_single_output Scripted.encoder Scripted.attention
    Scripted.decoder 5 0 (Scripted.script [] 2) 5 1 = Some (Raise IndexError).
Proof.
  split.
  - apply (proj1 (predict_rejects_bad_sos Scripted.encoder Scripted.attention
                    Scripted.decoder (-1) 0 (Scripted.script [] 2) 0 1)). lia.
  - apply (proj2 (predict_rejects_bad_sos Scripted.encoder Scripted.attention
                    Scripted.decoder 5 0 (Scripted.script [] 2) 5 1)); lia.
Defined.

(** With [eos = 7] and five output tokens, the decoder that always
    produces code 2 fills the cap. *)
Lemma invalid_eos_fills_cap_witness :
  Scripted.predict_single_output 102 (Scripted.script [] 2) 0 7
    = Some (Ok (replicate 101 2%Z)) ∧
  length (replicate 101 2%Z) = 101%nat.
Proof.
  split; [vm_compute; reflexivity|].
  apply (invalid_eos_fills_cap Scripted.encoder Scripted.attention Scripted.decoder 5
           102 (Scripted.script [] 2) 0 7).
  - lia.
  - vm_compute; reflexivity.
Defined.

(** A decoder with an empty distribution; and the scripted decoder, whose
    distribution has five entries, in a model of three output tokens, at
    the code 4, which is also [eos]. *)
Lemma step_errors_witness :
  InferenceModel.while_true Scripted.attention (λ z h c, ([], h, c)) 5 1 0 1
    (Scripted.script [] 2)
    (InferenceModel.mkLoop (InferenceModel.one_hot 5 0) 0%nat 0%nat [])
  = Some (Raise ValueError) ∧
  InferenceModel.while_true Scripted.attention Scripted.decoder 3 1 0 4
    (Scripted.script [4] 1)%nat
    (InferenceModel.mkLoop (InferenceModel.one_hot 3 0) 0%nat 0%nat [])
  = Some (Raise IndexError).
Proof.
  split.
  - apply (proj1 (step_errors Scripted.attention (λ z h c, ([], h, c)) 5 0 1
                    (Scripted.script [] 2)
                    (InferenceModel.mkLoop (InferenceModel.one_hot 5 0) 0%nat 0%nat [])
                    [] 0%nat 0%nat 0 eq_refl)).
    reflexivity.
  - apply (proj2 (step_errors Scripted.attention Scripted.decoder 3 0 4
                    (Scripted.script [4] 1)%nat
                    (InferenceModel.mkLoop (InferenceModel.one_hot 3 0) 0%nat 0%nat [])
                    (Scripted.peak 5 4) 1%nat 0%nat 0 eq_refl) 4).
    + reflexivity.
    + lia.
Defined.

(** The first step of the scripted decoder that produces 3, 4 and then
    1. *)
Lemma y_prev_is_one_hot_witness :
  length (InferenceModel.one_hot 5 3) = Z.to_nat 5 ∧
  InferenceModel.one_hot 5 3 !! Z.to_nat 3 = Some PrimFloat.one ∧
  ∀ j, (j < Z.to_nat 5)%nat → j ≠ Z.to_nat 3 →
       InferenceModel.one_hot 5 3 !! j = Some PrimFloat.zero.
Proof.
  apply (y_prev_is_one_hot Scripted.attention Scripted.decoder 5
           (Scripted.script [3; 4; 1] 1)%nat (InferenceModel.one_hot 5 0) 0%nat 0%nat
           3 (InferenceModel.one_hot 5 3) 1%nat 0%nat).
  reflexivity.
Defined.

(** With [sos = -1] the first row has its one at the last index, 4; the
    code 4 is a label all the same. *)
Lemma negative_sos_never_skips_witness :
  Scripted.predict_single_output 3 (Scripted.script [4; 3; 1] 1)%nat (-1) 1
  = Some (Ok (take 101 [4; 3])).
Proof.
  apply (negative_sos_never_skips Scripted.encoder Scripted.attention Scripted.decoder 5
           (Scripted.script [4; 3; 1] 1)%nat (Scripted.script [4; 3; 1] 1)%nat
           0%nat 0%nat (InferenceModel.one_hot 5 4) (-1) 1 [4; 3] 3).
  - lia.
  - reflexivity.
  - reflexivity.
  - reflexivity.
  - rewrite !not_elem_of_cons. repeat split; [lia | lia | apply not_elem_of_nil].
  - simpl. lia.
Defined.

(** ** Batch prediction *)

Section PredictList.

Context {Image Activations State : Type}.
Variable encoder : Image → Activations * State * State.
Variable attention : Activations → State → State → list float.
Variable decoder : list float → State → State → list float * State * State.
Variable n : Z.

Local Abbreviation predict_single_output :=
  (InferenceModel.predict_single_output encoder attention decoder n).
Local Abbreviation predict_list :=
  (InferenceModel.predict_list encoder attention decoder n).

Lemma predict_list_Ok (fuel : nat) (sos eos : Z) (X : list Image) :
  ∀ rows, predict_list fuel X sos eos = Some (Ok rows)
          ↔ Forall2 (λ x ls, predict_single_output fuel x sos eos = Some (Ok ls)) X rows.
Proof.
  induction X as [|x X IH]; intros rows; cbn [InferenceModel.predict_list].
  - split.
    + intros [= <-]. constructor.
    + intros H. by inversion H.
  - destruct (predict_single_output fuel x sos eos) as [[ls|e]|] eqn:Hx.
    + destruct (predict_list fuel X sos eos) as [[rows'|e]|] eqn:HX.
      * split.
        -- intros [= <-]. constructor; [done | by apply IH].
        -- intros H. inversion H as [|x' ls' X' rows'' Hls Hrows]; subst.
           apply IH in Hrows. by simplify_eq.
      * split; [discriminate|]. intros H.
        inversion H as [|x' ls' X' rows'' Hls Hrows]; subst. by apply IH in Hrows.
      * split; [discriminate|]. intros H.
        inversion H as [|x' ls' X' rows'' Hls Hrows]; subst. by apply IH in Hrows.
    + split; [discriminate|]. intros H. inversion H; simplify_eq.
    + split; [discriminate|]. intros H. inversion H; simplify_eq.
Qed.

(** The first image that does not give labels decides the result. *)
Lemma predict_list_stops (fuel : nat) (sos eos : Z) (x : Image) (X2 : list Image) :
  ∀ X1,
    Forall (λ x', ∃ ls, predict_single_output fuel x' sos eos = Some (Ok ls)) X1 →
    (∀ e, predict_single_output fuel x sos eos = Some (Raise e) →
          predict_list fuel (X1 ++ x :: X2) sos eos = Some (Raise e)) ∧
    (predict_single_output fuel x sos eos = None →
     predict_list fuel (X1 ++ x :: X2) sos eos = None).
Proof.
  induction X1 as [|x1 X1 IH]; intros Hall.
  - split; [intros e|]; intros Hx; cbn [app InferenceModel.predict_list]; by rewrite Hx.
  - apply Forall_cons in Hall as [[ls Hls] Hall]. destruct (IH Hall) as [IHe IHn].
    split; [intros e|]; intros Hx; cbn [app InferenceModel.predict_list]; rewrite Hls.
    + by rewrite (IHe e Hx).
    + by rewrite (IHn Hx).
Qed.

End PredictList.

Section BatchPrediction.

Context {Image Activations State Net Array : Type}.
Variable call_encoder : Net → Image → Activations * State * State.
Variable call_attention : Net → Activations → State → State → list float.
Variable call_decoder : Net → list float → State → State → list float * State * State.
Variable np_array : list (list Z) → PyResult Array.

Local Abbreviation predict :=
  (EncoderDecoder.predict call_encoder call_attention call_decoder np_array).
Local Abbreviation inference_model :=
  (EncoderDecoder.inference_model call_encoder call_attention call_decoder).

(** X6. [predict] decodes the images in order with the inference model of
    the instance and hands the list of label sequences to [np.array]. When
    it returns an array, that array is [np.array] of one label sequence for
    each image, each the result of decoding that image alone, with at most
    101 labels, all of them codes below the instance's number of output
    tokens and none of them the [sos] or [eos] given with the batch; when
    every image decodes, the result is that of [np.array] on the label
    sequences. The first image whose decoding raises makes [predict] raise
    the same exception, and the first image whose decoding does not end
    keeps [predict] from returning, whatever the images after it. *)
Theorem predict_batch (self : @EncoderDecoder.Model Net) (fuel : nat)
    (X : list Image) (sos eos : Z) :
  (∀ A, predict self fuel (X, sos, eos) = Some (Ok A) →
     ∃ rows, np_array rows = Ok A ∧
       Forall2 (λ x ls, inference_model self fuel x sos eos = Some (Ok ls)) X rows ∧
       Forall (λ ls,
                 Forall (λ code, 0 ≤ code < EncoderDecoder._num_output_tokens self) ls ∧
                 (eos ∉ ls) ∧ (sos ∉ ls) ∧ (length ls ≤ 101)%nat) rows) ∧
  (∀ rows, Forall2 (λ x ls, inference_model self fuel x sos eos = Some (Ok ls)) X rows →
     predict self fuel (X, sos, eos) = Some (np_array rows)) ∧
  (∀ X1 x X2 e, X = X1 ++ x :: X2 →
     Forall (λ x', ∃ ls, inference_model self fuel x' sos eos = Some (Ok ls)) X1 →
     inference_model self fuel x sos eos = Some (Raise e) →
     predict self fuel (X, sos, eos) = Some (Raise e)) ∧
  (∀ X1 x X2, X = X1 ++ x :: X2 →
     Forall (λ x', ∃ ls, inference_model self fuel x' sos eos = Some (Ok ls)) X1 →
     inference_model self fuel x sos eos = None →
     predict self fuel (X, sos, eos) = None).
Proof.
  unfold EncoderDecoder.predict, EncoderDecoder.inference_model, InferenceModel.predict.
  split; [|split; [|split]].
  - intros A H.
    destruct (InferenceModel.predict_list _ _ _ _ fuel X sos eos) as [[rows|e]|] eqn:HX;
      try discriminate.
    injection H as H. apply predict_list_Ok in HX.
    exists rows. split; [done|]. split; [done|].
    clear H. induction HX as [|x ls X' rows' Hls _ IH]; constructor; [|done].
    split; [by eapply predict_range|]. split; [by eapply predict_no_eos|].
    split; [by eapply predict_no_sos | by eapply predict_length].
  - intros rows Hrows. apply predict_list_Ok in Hrows. by rewrite Hrows.
  - intros X1 x X2 e -> Hall Hx.
    by rewrite (proj1 (predict_list_stops _ _ _ _ fuel sos eos x X2 X1 Hall) e Hx).
  - intros X1 x X2 -> Hall Hx.
    by rewrite (proj2 (predict_list_stops _ _ _ _ fuel sos eos x X2 X1 Hall) Hx).
Qed.

End BatchPrediction.

(** Two images on the scripted model, whose decoder produces code 2 until
    the cap: with [sos = 0] and [eos = 1] the batch is a matrix of two rows
    of 101 labels; with [sos = 5] the first image raises. *)
Lemma predict_batch_witness :
  (∃ rows,
     Numpy.array rows = Ok [replicate 101 2; replicate 101 2] ∧
     Forall2 (λ x ls,
                EncoderDecoder.inference_model Scripted.call_encoder
                  Scripted.call_attention Scripted.call_decoder Scripted.model
                  102 x 0 1 = Some (Ok ls))
       [Scripted.script [] 0; Scripted.script [3] 1]%nat rows ∧
     Forall (λ ls,
               Forall (λ code, 0 ≤ code
                               < EncoderDecoder._num_output_tokens Scripted.model) ls ∧
               (1 ∉ ls) ∧ (0 ∉ ls) ∧ (length ls ≤ 101)%nat) rows) ∧
  EncoderDecoder.predict Scripted.call_encoder Scripted.call_attention
    Scripted.call_decoder Numpy.array Scripted.model 102
    ([Scripted.script [] 0; Scripted.script [3] 1]%nat, 5, 1) = Some (Raise IndexError).
Proof.
  split.
  - apply (proj1 (predict_batch Scripted.call_encoder Scripted.call_attention
                    Scripted.call_decoder Numpy.array Scripted.model 102
                    [Scripted.script [] 0; Scripted.script [3] 1]%nat 0 1)).
    vm_compute. reflexivity.
  - apply (proj1 (proj2 (proj2 (predict_batch Scripted.call_encoder
                                  Scripted.call_attention Scripted.call_decoder
                                  Numpy.array Scripted.model 102
                                  [Scripted.script [] 0; Scripted.script [3] 1]%nat 5 1)))
             [] (Scripted.script [] 0)%nat [Scripted.script [3] 1]%nat IndexError).
    + reflexivity.
    + constructor.
    + vm_compute. reflexivity.
Defined.

(** The scripted model decodes code 2 until the cap, whatever the
    image. *)
Lemma instance_labels_below_output_size_witness :
  Forall (λ code, 0 ≤ code < 5) (replicate 101 2%Z).
Proof.
  apply (instance_labels_below_output_size Scripted.call_encoder Scripted.call_attention
           Scripted.call_decoder Scripted.make_encoder_model
           Scripted.make_step_decoder_model Scripted.make_attention_model
           Scripted.compute_output_shape 64 16 5 256 4 0 1
           102 (Scripted.script [] 0) 0 1 (replicate 101 2%Z)).
  vm_compute. reflexivity.
Defined.

(** ** The unrolled training graph *)

Section UnrolledGraph.

Context {Net : Type}.

Lemma unroll_closed_form (self : @EncoderDecoder.Model Net) (k : nat) :
  let u := foldl (EncoderDecoder.unroll_step self
                    (EncoderOut 0 (EncoderDecoder._encoder_inputs self)))
             (EncoderDecoder.mkUnroll None
                (EncoderOut 1 (EncoderDecoder._encoder_inputs self))
                (EncoderOut 2 (EncoderDecoder._encoder_inputs self)) [] [])
             (seqZ 0 (Z.of_nat k)) in
  (EncoderDecoder.state_h u, EncoderDecoder.state_c u) = EncoderDecoder.unrolled_state self k ∧
  EncoderDecoder.outputs_so_far u = EncoderDecoder.unrolled_output self <$> seq 0 k ∧
  EncoderDecoder.stdout u = seqZ 0 (Z.of_nat k).
Proof.
  induction k as [|k IH]; [done|].
  cbv zeta in *. rewrite seqZ_S, foldl_app. cbn [foldl].
  set (u := foldl _ _ (seqZ 0 (Z.of_nat k))) in *.
  destruct IH as (Hst & Hout & Hprint).
  unfold EncoderDecoder.unroll_step.
  cbn [EncoderDecoder.state_h EncoderDecoder.state_c EncoderDecoder.outputs_so_far
       EncoderDecoder.stdout].
  rewrite Hout, Hprint, seq_S, fmap_app. cbn [fmap list_fmap Nat.add].
  replace (0 + Z.of_nat k) with (Z.of_nat k) by lia.
  split; [|split; [|done]].
  - cbn [EncoderDecoder.unrolled_state]. by rewrite <- Hst.
  - f_equal. unfold EncoderDecoder.unrolled_output. by rewrite <- Hst.
Qed.

(** X8. The training graph in closed form. Step [k] (numbered from 0)
    attends over the encoder's activations with the recurrent state it is
    given, concatenates the context with the output of its Lambda layer on
    the decoder inputs, and puts the decoder's first output in the list;
    the decoder's second and third outputs are the state given to step
    [k + 1], and step 0 is given the encoder's own second and third
    outputs. There are as many steps as [max_text_length] says, none if
    it is zero or negative, and each prints its number. *)
Theorem training_model_unrolled (self : @EncoderDecoder.Model Net) :
  let m := EncoderDecoder._create_training_model self in
  let Tx := EncoderDecoder._max_text_length self in
  outputs (EncoderDecoder.graph m)
    = EncoderDecoder.unrolled_output self <$> seq 0 (Z.to_nat Tx) ∧
  inputs (EncoderDecoder.graph m)
    = [EncoderDecoder._encoder_inputs self; EncoderDecoder._decoder_inputs self] ∧
  EncoderDecoder.printed m = seqZ 0 Tx.
Proof.
  intros m Tx. subst m. unfold EncoderDecoder._create_training_model.
  cbn [EncoderDecoder.graph EncoderDecoder.printed outputs inputs].
  assert (seqZ 0 Tx = seqZ 0 (Z.of_nat (Z.to_nat Tx))) as Hseq.
  { destruct (decide (0 ≤ Tx)); [by rewrite Z2Nat.id|].
    rewrite seqZ_nil by lia. replace (Z.to_nat Tx) with 0%nat by lia. done. }
  fold Tx. rewrite Hseq.
  destruct (unroll_closed_form self (Z.to_nat Tx)) as (_ & Hout & Hprint).
  cbv zeta in Hout, Hprint. by rewrite Hout, Hprint.
Qed.

End UnrolledGraph.

(** ** Errors and edge cases of fit *)

Lemma truediv_zero_ceil (b : Z) (q : float) :
  truediv 0 b = Ok q → math_ceil q = Ok 0.
Proof.
  unfold truediv. destruct (Z.eqb_spec b 0) as [->|Hb]; [discriminate|].
  destruct b as [|p|p]; [done| |]; cbn; intros [= <-]; reflexivity.
Qed.

Section FitEdgeCases.

Context {Net UserObj : Type}.

Local Abbreviation fit := (@EncoderDecoder.fit Net UserObj).

Lemma fit_inv (self : @EncoderDecoder.Model Net) (train_generator val_generator : Generator)
    (compilation_params training_params : option (gmap string UserObj))
    (run : @EncoderDecoder.TrainingRun UserObj) :
  fit self train_generator val_generator compilation_params training_params = Ok run →
  ∃ q q',
    truediv (size train_generator) (batch_size train_generator) = Ok q ∧
    math_ceil q = Ok (EncoderDecoder.fit_steps_per_epoch run) ∧
    truediv (size val_generator) (batch_size val_generator) = Ok q' ∧
    math_ceil q' = Ok (EncoderDecoder.fit_validation_steps run) ∧
    ¬ Exists (λ k, is_Some (default ∅ training_params !! k))
        EncoderDecoder.fit_explicit_arguments ∧
    EncoderDecoder.compile_metrics run
      = match default ∅ compilation_params !! "metrics" with
        | Some m => EncoderDecoder.given_metrics m
        | None => EncoderDecoder.no_metrics
        end ∧
    EncoderDecoder.fit_x run = train_generator ∧
    EncoderDecoder.fit_validation_data run = val_generator ∧
    EncoderDecoder.fit_kwargs run = default ∅ training_params.
Proof.
  unfold EncoderDecoder.fit. intros H.
  apply bind_Ok_inv in H as (q & Hq & H).
  apply bind_Ok_inv in H as (steps & Hsteps & H).
  apply bind_Ok_inv in H as (q' & Hq' & H).
  apply bind_Ok_inv in H as (vsteps & Hvsteps & H).
  case_bool_decide as Hdup; [discriminate|].
  injection H as <-. exists q, q'. simpl. done.
Qed.

(** X9. A batch size of zero is a [ZeroDivisionError]: of the training
    generator at once, of the validation generator once the steps of the
    training generator have been computed. No model is built or
    compiled. *)
Theorem fit_zero_batch_size (self : @EncoderDecoder.Model Net)
    (train_generator val_generator : Generator)
    (compilation_params training_params : option (gmap string UserObj)) :
  (batch_size train_generator = 0 →
   fit self train_generator val_generator compilation_params training_params
   = Raise ZeroDivisionError) ∧
  (∀ steps,
     truediv (size train_generator) (batch_size train_generator) ≫= math_ceil = Ok steps →
     batch_size val_generator = 0 →
     fit self train_generator val_generator compilation_params training_params
     = Raise ZeroDivisionError).
Proof.
  unfold EncoderDecoder.fit. split.
  - intros ->. reflexivity.
  - intros steps Hsteps Hb.
    apply bind_Ok_inv in Hsteps as (q & -> & Hsteps). rewrite bind_Ok, Hsteps, bind_Ok.
    rewrite Hb. reflexivity.
Qed.

(** X10. A training parameter named like one of the arguments that [fit]
    passes itself ([x], [steps_per_epoch], [validation_data],
    [validation_steps]) is a [TypeError], raised when both step counts
    have been computed. *)
Theorem fit_duplicate_keyword (self : @EncoderDecoder.Model Net)
    (train_generator val_generator : Generator)
    (compilation_params : option (gmap string UserObj))
    (training_params : gmap string UserObj) (key : string) (steps val_steps : Z) :
  truediv (size train_generator) (batch_size train_generator) ≫= math_ceil = Ok steps →
  truediv (size val_generator) (batch_size val_generator) ≫= math_ceil = Ok val_steps →
  key ∈ EncoderDecoder.fit_explicit_arguments →
  is_Some (training_params !! key) →
  fit self train_generator val_generator compilation_params (Some training_params)
  = Raise TypeError.
Proof.
  intros Hsteps Hval Hkey Hsome. unfold EncoderDecoder.fit.
  apply bind_Ok_inv in Hsteps as (q & -> & Hsteps). rewrite bind_Ok, Hsteps, bind_Ok.
  apply bind_Ok_inv in Hval as (q' & -> & Hval). rewrite bind_Ok, Hval, bind_Ok.
  rewrite bool_decide_eq_true_2; [done|].
  apply Exists_exists. by exists key.
Qed.


(** X12. An empty generator gives zero steps: when [fit] reaches
    training, a training generator of size 0 has [steps_per_epoch = 0],
    and a validation generator of size 0 has [validation_steps = 0],
    whatever the batch sizes. *)
Theorem fit_empty_generator (self : @EncoderDecoder.Model Net)
    (train_generator val_generator : Generator)
    (compilation_params training_params : option (gmap string UserObj))
    (run : @EncoderDecoder.TrainingRun UserObj) :
  fit self train_generator val_generator compilation_params training_params = Ok run →
  (size train_generator = 0 → EncoderDecoder.fit_steps_per_epoch run = 0) ∧
  (size val_generator = 0 → EncoderDecoder.fit_validation_steps run = 0).
Proof.
  intros H. apply fit_inv in H as (q & q' & Hq & Hs & Hq' & Hv & _).
  split; intros H0; rewrite H0 in *.
  - apply truediv_zero_ceil in Hq. congruence.
  - apply truediv_zero_ceil in Hq'. congruence.
Qed.

End FitEdgeCases.

(** A training generator in batches of 0; a validation generator in
    batches of 0. *)
Lemma fit_zero_batch_size_witness :
  @EncoderDecoder.fit (nat → nat) unit Scripted.model (mkGenerator 10 0)
    Scripted.val_generator None None = Raise ZeroDivisionError ∧
  @EncoderDecoder.fit (nat → nat) unit Scripted.model Scripted.train_generator
    (mkGenerator 9 0) None None = Raise ZeroDivisionError.
Proof.
  split.
  - apply (proj1 (fit_zero_batch_size Scripted.model (mkGenerator 10 0)
                    Scripted.val_generator None None)).
    reflexivity.
  - apply (proj2 (fit_zero_batch_size Scripted.model Scripted.train_generator
                    (mkGenerator 9 0) None None) 4).
    + reflexivity.
    + reflexivity.
Defined.

(** [steps_per_epoch] among the training parameters. *)
Lemma fit_duplicate_keyword_witness :
  @EncoderDecoder.fit (nat → nat) unit Scripted.model Scripted.train_generator
    Scripted.val_generator None (Some {["steps_per_epoch" := tt]})
  = Raise TypeError.
Proof.
  apply (fit_duplicate_keyword Scripted.model Scripted.train_generator
           Scripted.val_generator None {["steps_per_epoch" := tt]}
           "steps_per_epoch" 4 3).
  - reflexivity.
  - reflexivity.
  - unfold EncoderDecoder.fit_explicit_arguments. set_solver.
  - by rewrite lookup_singleton_eq.
Defined.


(** Two empty generators in batches of 3. *)
Lemma fit_empty_generator_witness :
  ∃ run, @EncoderDecoder.fit (nat → nat) unit Scripted.model (mkGenerator 0 3)
           (mkGenerator 0 3) None None = Ok run ∧
    EncoderDecoder.fit_steps_per_epoch run = 0 ∧
    EncoderDecoder.fit_validation_steps run = 0.
Proof.
  eexists. split; [reflexivity|].
  pose proof (@fit_empty_generator (nat → nat) unit Scripted.model (mkGenerator 0 3)
                (mkGenerator 0 3) None None _ eq_refl) as [H1 H2].
  split; [apply H1 | apply H2]; reflexivity.
Defined.

(** ** Errors and edge cases of save and load *)

Section SaveLoadEdgeCases.

Context {Net : Type}.
Variable make_encoder_model : Z → Z → Z → Net.
Variable make_step_decoder_model : Z → Z → Z → Net.
Variable make_attention_model : Z → Z → Net.
Variable compute_output_shape : Z * Z * Z → Z * Z.

Local Abbreviation Model := (@EncoderDecoder.Model Net).
Local Abbreviation FS := (@EncoderDecoder.FS Net).
Local Abbreviation __init__ :=
  (EncoderDecoder.__init__ make_encoder_model make_step_decoder_model
     make_attention_model compute_output_shape).
Local Abbreviation load :=
  (EncoderDecoder.load make_encoder_model make_step_decoder_model
     make_attention_model compute_output_shape).
Local Abbreviation call_cls :=
  (EncoderDecoder.call_cls make_encoder_model make_step_decoder_model
     make_attention_model compute_output_shape).
Local Abbreviation join := EncoderDecoder.os_path_join.

Lemma read_file_inv (p : string) (content : EncoderDecoder.File) (fs : FS) :
  EncoderDecoder.read_file p fs = Ok content →
  (p ∉ EncoderDecoder.dirs fs) ∧ EncoderDecoder.files fs !! p = Some content.
Proof.
  unfold EncoderDecoder.read_file. case_bool_decide; [discriminate|].
  destruct (EncoderDecoder.files fs !! p); [|discriminate]. by intros [= ->].
Qed.

Lemma read_json_inv (p : string) (doc : JSON) (fs : FS) :
  EncoderDecoder.read_json p fs = Ok doc →
  EncoderDecoder.files fs !! p = Some (EncoderDecoder.JsonFile doc).
Proof.
  unfold EncoderDecoder.read_json. intros H.
  apply bind_Ok_inv in H as ([d|net] & Hr & H); [|discriminate].
  injection H as ->. by apply read_file_inv in Hr as [_ ?].
Qed.

Lemma load_model_inv (p : string) (net : Net) (fs : FS) :
  EncoderDecoder.load_model p fs = Ok net →
  EncoderDecoder.files fs !! p = Some (EncoderDecoder.ModelFile net).
Proof.
  unfold EncoderDecoder.load_model. intros H.
  destruct (EncoderDecoder.read_file p fs) as [[d|net']|e] eqn:Hr; try discriminate.
  injection H as ->. by apply read_file_inv in Hr as [_ ?].
Qed.

Lemma int_argument_inv (kwargs : gmap string JSON) (name : string) (z : Z) :
  EncoderDecoder.int_argument kwargs name = Ok z → kwargs !! name = Some (JInt z).
Proof.
  unfold EncoderDecoder.int_argument.
  destruct (kwargs !! name) as [[]|]; try discriminate. by intros [= ->].
Qed.

Lemma call_cls_inv (params : JSON) (instance : Model) :
  call_cls params = Ok instance →
  ∃ kwargs,
    params = JDict kwargs ∧
    dom kwargs = list_to_set EncoderDecoder.init_parameters ∧
    ∃ height units output_size max_image_width max_text_length sos eos,
      kwargs !! "height" = Some (JInt height) ∧
      kwargs !! "units" = Some (JInt units) ∧
      kwargs !! "output_size" = Some (JInt output_size) ∧
      kwargs !! "max_image_width" = Some (JInt max_image_width) ∧
      kwargs !! "max_text_length" = Some (JInt max_text_length) ∧
      kwargs !! "sos" = Some (JInt sos) ∧
      kwargs !! "eos" = Some (JInt eos) ∧
      instance = __init__ height units output_size max_image_width max_text_length sos eos.
Proof.
  unfold EncoderDecoder.call_cls. destruct params as [| | | | | |kwargs]; try discriminate.
  case_bool_decide as Hdom; [|discriminate]. intros H.
  apply bind_Ok_inv in H as (height & H1 & H).
  apply bind_Ok_inv in H as (units & H2 & H).
  apply bind_Ok_inv in H as (output_size & H3 & H).
  apply bind_Ok_inv in H as (max_image_width & H4 & H).
  apply bind_Ok_inv in H as (max_text_length & H5 & H).
  apply bind_Ok_inv in H as (sos & H6 & H).
  apply bind_Ok_inv in H as (eos & H7 & H).
  injection H as <-.
  exists kwargs. split; [done|]. split; [done|].
  exists height, units, output_size, max_image_width, max_text_length, sos, eos.
  repeat split; by apply int_argument_inv.
Qed.

(** X13. What a successful [load] has read. The directory holds a JSON
    document at [params.json] and a saved network at each of [encoder.h5],
    [decoder.h5] and [attention.h5]; the three networks of the instance
    are those, not the ones [__init__] made; its preprocessing options are
    the ['preprocessing'] entry of the document; the ['params'] entry is a
    dictionary with the seven parameter names of [__init__] as its keys
    and no other; the number of output tokens of the instance is its
    [output_size], and its two input tensors have the shapes [__init__]
    gives them. *)
Theorem load_reads (path : string) (fs : FS) (instance : Model) :
  load path fs = Ok instance →
  ∃ d kwargs,
    EncoderDecoder.files fs !! join path "params.json" = Some (EncoderDecoder.JsonFile d) ∧
    EncoderDecoder.getitem d "params" = Ok (JDict kwargs) ∧
    dom kwargs = list_to_set EncoderDecoder.init_parameters ∧
    EncoderDecoder.files fs !! join path "encoder.h5"
      = Some (EncoderDecoder.ModelFile (EncoderDecoder._encoder instance)) ∧
    EncoderDecoder.files fs !! join path "decoder.h5"
      = Some (EncoderDecoder.ModelFile (EncoderDecoder._decoder instance)) ∧
    EncoderDecoder.files fs !! join path "attention.h5"
      = Some (EncoderDecoder.ModelFile (EncoderDecoder._attention instance)) ∧
    EncoderDecoder.getitem d "preprocessing"
      = Ok (EncoderDecoder._preprocessing_options instance) ∧
    EncoderDecoder._num_output_tokens instance = EncoderDecoder._output_size instance ∧
    EncoderDecoder._encoder_inputs instance
      = Input [EncoderDecoder._height instance;
               EncoderDecoder._max_image_width instance; 1] ∧
    EncoderDecoder._decoder_inputs instance
      = Input [EncoderDecoder._max_text_length instance;
               EncoderDecoder._output_size instance].
Proof.
  unfold EncoderDecoder.load. intros H.
  apply bind_Ok_inv in H as (d & Hd & H).
  apply bind_Ok_inv in H as (params & Hparams & H).
  apply bind_Ok_inv in H as (inst & Hinst & H).
  apply bind_Ok_inv in H as (enc & Henc & H).
  apply bind_Ok_inv in H as (dec & Hdec & H).
  apply bind_Ok_inv in H as (att & Hatt & H).
  apply bind_Ok_inv in H as (prep & Hprep & H).
  injection H as <-.
  apply read_json_inv in Hd. apply load_model_inv in Henc, Hdec, Hatt.
  apply call_cls_inv in Hinst
    as (kwargs & -> & Hdom & h & u & o & w & t & s & e & ? & ? & ? & ? & ? & ? & ? & ->).
  exists d, kwargs. unfold EncoderDecoder.__init__.
  destruct (compute_output_shape _) as [num_activations width]. simpl.
  repeat split; done.
Qed.

(** X14. A ['params'] entry whose keys are not exactly the seven
    parameter names of [__init__] (one is missing, or there is one more)
    makes [load] raise [TypeError], before it looks for any network
    file. *)
Theorem load_rejects_other_keys (path : string) (fs : FS) (d : JSON)
    (kwargs : gmap string JSON) :
  join path "params.json" ∉ EncoderDecoder.dirs fs →
  EncoderDecoder.files fs !! join path "params.json" = Some (EncoderDecoder.JsonFile d) →
  EncoderDecoder.getitem d "params" = Ok (JDict kwargs) →
  dom kwargs ≠ list_to_set EncoderDecoder.init_parameters →
  load path fs = Raise TypeError.
Proof.
  intros Hdir Hfile Hparams Hdom. unfold EncoderDecoder.load, EncoderDecoder.read_json.
  rewrite (read_file_lookup _ _ _ Hdir Hfile), bind_Ok, bind_Ok, Hparams, bind_Ok.
  unfold EncoderDecoder.call_cls. by rewrite bool_decide_eq_false_2.
Qed.

(** X15. [load] of a directory without [params.json] raises
    [FileNotFoundError]. *)
Theorem load_without_params (path : string) (fs : FS) :
  join path "params.json" ∉ EncoderDecoder.dirs fs →
  EncoderDecoder.files fs !! join path "params.json" = None →
  load path fs = Raise FileNotFoundError.
Proof.
  intros Hdir Hfile. unfold EncoderDecoder.load, EncoderDecoder.read_json,
    EncoderDecoder.read_file.
  by rewrite bool_decide_eq_false_2, Hfile.
Qed.

End SaveLoadEdgeCases.

Section SaveProperties.

Context {Net : Type}.

Local Abbreviation Model := (@EncoderDecoder.Model Net).
Local Abbreviation FS := (@EncoderDecoder.FS Net).
Local Abbreviation join := EncoderDecoder.os_path_join.

(** The document that [save] writes to [params.json]. *)
Local Abbreviation params_doc self preprocessing_params :=
  (JDict (<["name" := JStr "ConvolutionalEncoderDecoderWithAttention"]>
         (<["params" :=
              JDict (<["height" := JInt (EncoderDecoder._height self)]>
                    (<["units" := JInt (EncoderDecoder._units self)]>
                    (<["output_size" := JInt (EncoderDecoder._output_size self)]>
                    (<["max_image_width" := JInt (EncoderDecoder._max_image_width self)]>
                    (<["max_text_length" := JInt (EncoderDecoder._max_text_length self)]>
                    (<["sos" := JInt (EncoderDecoder._sos self)]>
                    (<["eos" := JInt (EncoderDecoder._eos self)]> ∅)))))))]>
         (<["preprocessing" := preprocessing_params]> ∅)))).

(** The file system after a [save] that returns: the directory is there,
    made if nothing was at [path]; the four files are written, none of
    them over a directory; nothing else is changed. *)
Lemma save_inv (self : Model) (path : string) (preprocessing_params : JSON) (fs fs' : FS) :
  EncoderDecoder.save self path preprocessing_params fs = Ok fs' →
  (EncoderDecoder.dirs fs' = EncoderDecoder.dirs fs ∧
     EncoderDecoder.os_path_exists fs path = true ∨
   EncoderDecoder.dirs fs' = {[path]} ∪ EncoderDecoder.dirs fs ∧
     EncoderDecoder.os_path_exists fs path = false ∧ path ≠ "") ∧
  (join path "params.json" ∉ EncoderDecoder.dirs fs') ∧
  (join path "encoder.h5" ∉ EncoderDecoder.dirs fs') ∧
  (join path "decoder.h5" ∉ EncoderDecoder.dirs fs') ∧
  (join path "attention.h5" ∉ EncoderDecoder.dirs fs') ∧
  EncoderDecoder.files fs'
  = <[join path "attention.h5" := EncoderDecoder.ModelFile (EncoderDecoder._attention self)]>
    (<[join path "decoder.h5" := EncoderDecoder.ModelFile (EncoderDecoder._decoder self)]>
    (<[join path "encoder.h5" := EncoderDecoder.ModelFile (EncoderDecoder._encoder self)]>
    (<[join path "params.json" :=
         EncoderDecoder.JsonFile (params_doc self preprocessing_params)]>
       (EncoderDecoder.files fs)))).
Proof.
  unfold EncoderDecoder.save. intros H.
  apply bind_Ok_inv in H as (fs0 & H0 & H).
  apply bind_Ok_inv in H as (fs1 & H1 & H).
  apply bind_Ok_inv in H as (fs2 & H2 & H).
  apply bind_Ok_inv in H as (fs3 & H3 & H4).
  apply write_file_inv in H1 as [Hd1 ->].
  apply write_file_inv in H2 as [Hd2 ->].
  apply write_file_inv in H3 as [Hd3 ->].
  apply write_file_inv in H4 as [Hd4 ->].
  cbn [EncoderDecoder.dirs EncoderDecoder.files] in *.
  assert ((EncoderDecoder.dirs fs0 = EncoderDecoder.dirs fs ∧
             EncoderDecoder.os_path_exists fs path = true ∨
           EncoderDecoder.dirs fs0 = {[path]} ∪ EncoderDecoder.dirs fs ∧
             EncoderDecoder.os_path_exists fs path = false ∧ path ≠ "") ∧
          EncoderDecoder.files fs0 = EncoderDecoder.files fs) as [Hdirs Hfiles].
  { destruct (EncoderDecoder.os_path_exists fs path) eqn:Hex; simpl in H0.
    - injection H0 as <-. split; [by left | done].
    - unfold EncoderDecoder.os_mkdir in H0. rewrite Hex in H0.
      case_bool_decide; [discriminate|]. injection H0 as <-. simpl.
      split; [by right | done]. }
  rewrite Hfiles. done.
Qed.

(** X16. [save] touches nothing but its own: the content of every path
    other than the four files it writes is as before, and no directory is
    removed or added, except [path] itself when nothing was there. *)
Theorem save_frame (self : Model) (path : string) (preprocessing_params : JSON)
    (fs fs' : FS) :
  EncoderDecoder.save self path preprocessing_params fs = Ok fs' →
  (∀ p, p ≠ join path "params.json" → p ≠ join path "encoder.h5" →
        p ≠ join path "decoder.h5" → p ≠ join path "attention.h5" →
        EncoderDecoder.files fs' !! p = EncoderDecoder.files fs !! p) ∧
  (EncoderDecoder.os_path_exists fs path = true →
   EncoderDecoder.dirs fs' = EncoderDecoder.dirs fs) ∧
  (EncoderDecoder.os_path_exists fs path = false →
   EncoderDecoder.dirs fs' = {[path]} ∪ EncoderDecoder.dirs fs).
Proof.
  intros H. apply save_inv in H as (Hdirs & _ & _ & _ & _ & Hfiles).
  split; [|split].
  - intros p ? ? ? ?. rewrite Hfiles. by rewrite !lookup_insert_ne.
  - intros Hex. destruct Hdirs as [[? _]|(_ & ? & _)]; [done | congruence].
  - intros Hex. destruct Hdirs as [[_ ?]|(? & _ & _)]; [congruence | done].
Qed.

(** With the empty string as [path], where there is nothing, [save]
    raises [FileNotFoundError] (from [os.mkdir]) and writes no file. *)
Theorem save_empty_path (self : Model) (preprocessing_params : JSON) (fs : FS) :
  EncoderDecoder.os_path_exists fs "" = false →
  EncoderDecoder.save self "" preprocessing_params fs = Raise FileNotFoundError.
Proof.
  intros Hex. unfold EncoderDecoder.save. rewrite Hex. reflexivity.
Qed.

Lemma os_path_exists_insert (fs : FS) (dirs' : gset string) (p : string)
    (files' : gmap string (@EncoderDecoder.File Net)) :
  EncoderDecoder.dirs fs ⊆ dirs' →
  (∀ k, is_Some (EncoderDecoder.files fs !! k) → is_Some (files' !! k)) →
  EncoderDecoder.os_path_exists fs p = true →
  EncoderDecoder.os_path_exists (EncoderDecoder.mkFS dirs' files') p = true.
Proof.
  unfold EncoderDecoder.os_path_exists. intros Hd Hf H.
  apply orb_true_iff in H as [H|H]; apply bool_decide_eq_true in H;
    apply orb_true_iff; [left | right]; apply bool_decide_eq_true; simpl; auto.
Qed.

(** X17. Saving again is harmless: after a [save] that returned, the same
    [save] returns again and leaves the file system exactly as it is. *)
Theorem save_twice (self : Model) (path : string) (preprocessing_params : JSON)
    (fs fs' : FS) :
  EncoderDecoder.save self path preprocessing_params fs = Ok fs' →
  EncoderDecoder.save self path preprocessing_params fs' = Ok fs'.
Proof.
  intros H. apply save_inv in H as (Hdirs & Hd1 & Hd2 & Hd3 & Hd4 & Hfiles).
  assert (EncoderDecoder.os_path_exists fs' path = true) as Hex.
  { destruct fs' as [dirs' files']. simpl in *.
    destruct Hdirs as [[Hsame Hex]|(Hnew & _ & _)].
    - apply (os_path_exists_insert fs); [by rewrite Hsame | | done].
      intros k Hk. rewrite Hfiles. rewrite !lookup_insert_is_Some'. tauto.
    - unfold EncoderDecoder.os_path_exists. simpl.
      rewrite bool_decide_eq_true_2; [done|]. rewrite Hnew. set_solver. }
  unfold EncoderDecoder.save. rewrite Hex. simpl negb. cbv iota. rewrite bind_Ok.
  unfold EncoderDecoder.save_model_params, EncoderDecoder.keras_save,
    EncoderDecoder.write_file.
  rewrite (bool_decide_eq_false_2 _ Hd1), bind_Ok. simpl EncoderDecoder.dirs.
  rewrite (bool_decide_eq_false_2 _ Hd2), bind_Ok. simpl EncoderDecoder.dirs.
  rewrite (bool_decide_eq_false_2 _ Hd3), bind_Ok. simpl EncoderDecoder.dirs.
  rewrite (bool_decide_eq_false_2 _ Hd4). simpl EncoderDecoder.files.
  f_equal. destruct fs' as [dirs' files']. simpl in *. f_equal.
  pose proof (os_path_join_ne path "params.json" "encoder.h5" ltac:(done)).
  pose proof (os_path_join_ne path "params.json" "decoder.h5" ltac:(done)).
  pose proof (os_path_join_ne path "params.json" "attention.h5" ltac:(done)).
  pose proof (os_path_join_ne path "encoder.h5" "decoder.h5" ltac:(done)).
  pose proof (os_path_join_ne path "encoder.h5" "attention.h5" ltac:(done)).
  pose proof (os_path_join_ne path "decoder.h5" "attention.h5" ltac:(done)).
  rewrite Hfiles. apply map_eq. intros k.
  destruct (decide (k = join path "attention.h5")) as [->|];
    [by rewrite !lookup_insert_eq|].
  rewrite !(lookup_insert_ne _ (join path "attention.h5")) by done.
  destruct (decide (k = join path "decoder.h5")) as [->|];
    [by rewrite !lookup_insert_eq|].
  rewrite !(lookup_insert_ne _ (join path "decoder.h5")) by done.
  destruct (decide (k = join path "encoder.h5")) as [->|];
    [by rewrite !lookup_insert_eq|].
  rewrite !(lookup_insert_ne _ (join path "encoder.h5")) by done.
  destruct (decide (k = join path "params.json")) as [->|];
    [by rewrite !lookup_insert_eq|].
  by rewrite !lookup_insert_ne by done.
Qed.

End SaveProperties.

Section LoadAfterSave.

Context {Net : Type}.
Variable make_encoder_model : Z → Z → Z → Net.
Variable make_step_decoder_model : Z → Z → Z → Net.
Variable make_attention_model : Z → Z → Net.
Variable compute_output_shape : Z * Z * Z → Z * Z.

Local Abbreviation Model := (@EncoderDecoder.Model Net).
Local Abbreviation FS := (@EncoderDecoder.FS Net).
Local Abbreviation __init__ :=
  (EncoderDecoder.__init__ make_encoder_model make_step_decoder_model
     make_attention_model compute_output_shape).
Local Abbreviation load :=
  (EncoderDecoder.load make_encoder_model make_step_decoder_model
     make_attention_model compute_output_shape).
Local Abbreviation join := EncoderDecoder.os_path_join.

(** The instance that [load] returns after [save]: the attributes that
    [__init__] computes from the seven saved ones, with the saved networks
    and preprocessing parameters in place of the fresh ones. *)
Lemma load_after_save (self : Model) (path : string) (preprocessing_params : JSON)
    (fs fs' : FS) :
  EncoderDecoder.save self path preprocessing_params fs = Ok fs' →
  load path fs'
  = Ok (EncoderDecoder.mkModel
          (EncoderDecoder._height self) (EncoderDecoder._units self)
          (EncoderDecoder._output_size self) (EncoderDecoder._max_image_width self)
          (EncoderDecoder._max_text_length self) (EncoderDecoder._sos self)
          (EncoderDecoder._eos self)
          (Input [EncoderDecoder._height self; EncoderDecoder._max_image_width self; 1])
          (Input [EncoderDecoder._max_text_length self; EncoderDecoder._output_size self])
          (EncoderDecoder._encoder self) (EncoderDecoder._decoder self)
          (EncoderDecoder._attention self)
          (EncoderDecoder._output_size self) preprocessing_params).
Proof.
  intros H. apply save_inv in H as (_ & Hd1 & Hd2 & Hd3 & Hd4 & Hfiles).
  pose proof (os_path_join_ne path "params.json" "encoder.h5" ltac:(done)).
  pose proof (os_path_join_ne path "params.json" "decoder.h5" ltac:(done)).
  pose proof (os_path_join_ne path "params.json" "attention.h5" ltac:(done)).
  pose proof (os_path_join_ne path "encoder.h5" "decoder.h5" ltac:(done)).
  pose proof (os_path_join_ne path "encoder.h5" "attention.h5" ltac:(done)).
  pose proof (os_path_join_ne path "decoder.h5" "attention.h5" ltac:(done)).
  unfold EncoderDecoder.load, EncoderDecoder.read_json.
  erewrite (read_file_lookup (join path "params.json"));
    [| done | rewrite Hfiles; by simplify_map_eq].
  rewrite bind_Ok, bind_Ok, getitem_params, bind_Ok, call_cls_model_params, bind_Ok.
  erewrite (load_model_lookup (join path "encoder.h5"));
    [| done | rewrite Hfiles; by simplify_map_eq].
  rewrite bind_Ok.
  erewrite (load_model_lookup (join path "decoder.h5"));
    [| done | rewrite Hfiles; by simplify_map_eq].
  rewrite bind_Ok.
  erewrite (load_model_lookup (join path "attention.h5"));
    [| done | rewrite Hfiles; by simplify_map_eq].
  rewrite bind_Ok, getitem_preprocessing, bind_Ok.
  unfold EncoderDecoder.__init__.
  destruct (compute_output_shape _) as [num_activations w]. reflexivity.
Qed.

(** X18. [save] and [load] give back the whole instance, not only its
    configuration: for a model whose two input tensors have the shapes
    [__init__] gives them and whose number of output tokens is its
    [output_size], saving it with its own preprocessing options and loading
    the directory returns an instance equal to it in every attribute. *)
Theorem save_load_identity (self : Model) (path : string) (fs fs' : FS) :
  EncoderDecoder._encoder_inputs self
    = Input [EncoderDecoder._height self; EncoderDecoder._max_image_width self; 1] →
  EncoderDecoder._decoder_inputs self
    = Input [EncoderDecoder._max_text_length self; EncoderDecoder._output_size self] →
  EncoderDecoder._num_output_tokens self = EncoderDecoder._output_size self →
  EncoderDecoder.save self path (EncoderDecoder._preprocessing_options self) fs = Ok fs' →
  load path fs' = Ok self.
Proof.
  intros Hx Hy Hn H. rewrite (load_after_save _ _ _ _ _ H).
  rewrite <- Hx, <- Hy. destruct self. simpl in *. by rewrite Hn.
Qed.

(** X19. The preprocessor of a loaded model is configured with the
    preprocessing parameters that were saved, when they are a dictionary;
    saved parameters of any other kind (a list, a string, [None]) are
    written and read back without complaint, and it is [get_preprocessor]
    that raises [TypeError]. *)
Theorem get_preprocessor_after_load (self : Model) (path : string)
    (preprocessing_params : JSON) (fs fs' : FS) :
  EncoderDecoder.save self path preprocessing_params fs = Ok fs' →
  ∃ instance,
    load path fs' = Ok instance ∧
    (∀ options, preprocessing_params = JDict options →
       EncoderDecoder.get_preprocessor instance
       = Ok (EncoderDecoder.mkPreprocessor options)) ∧
    ((∀ options, preprocessing_params ≠ JDict options) →
       EncoderDecoder.get_preprocessor instance = Raise TypeError).
Proof.
  intros H. eexists. split; [by eapply load_after_save|].
  unfold EncoderDecoder.get_preprocessor. simpl. split.
  - by intros options ->.
  - intros Hno. destruct preprocessing_params; try done. by destruct (Hno d).
Qed.

(** A model fresh from [__init__] has a preprocessor configured with
    no option at all, and its adapter and its inference model agree on the
    number of output tokens, which is [output_size]. *)
Theorem fresh_model (height units output_size max_image_width max_text_length sos eos : Z) :
  let self := __init__ height units output_size max_image_width max_text_length sos eos in
  EncoderDecoder.get_preprocessor self = Ok (EncoderDecoder.mkPreprocessor ∅) ∧
  Adapter.num_output_tokens (EncoderDecoder.get_adapter self) = output_size ∧
  EncoderDecoder._num_output_tokens self = output_size ∧
  EncoderDecoder._encoder_inputs self = Input [height; max_image_width; 1] ∧
  EncoderDecoder._decoder_inputs self = Input [max_text_length; output_size] ∧
  EncoderDecoder._encoder self = make_encoder_model height 1 units ∧
  EncoderDecoder._decoder self
    = make_step_decoder_model units (units + output_size) output_size ∧
  EncoderDecoder._attention self
    = make_attention_model (compute_output_shape (height, max_image_width, 1)).1 units.
Proof.
  unfold EncoderDecoder.__init__.
  destruct (compute_output_shape _) as [num_activations w]. simpl. repeat split.
Qed.

End LoadAfterSave.

(** The scripted model, saved into an empty file system with its own
    (empty) preprocessing options. *)
Lemma save_load_identity_witness :
  Scripted.load "model"
    (match EncoderDecoder.save Scripted.model "model" (JDict ∅) Scripted.empty_fs with
     | Ok fs => fs
     | Raise _ => Scripted.empty_fs
     end) = Ok Scripted.model.
Proof.
  apply (save_load_identity Scripted.make_encoder_model Scripted.make_step_decoder_model
           Scripted.make_attention_model Scripted.compute_output_shape
           Scripted.model "model" Scripted.empty_fs).
  - reflexivity.
  - reflexivity.
  - reflexivity.
  - vm_compute. reflexivity.
Defined.

(** The scripted model saved with a dictionary of two options. *)
Lemma get_preprocessor_after_load_witness :
  ∃ instance,
    Scripted.load "model" Scripted.saved_fs = Ok instance ∧
    (∀ options, Scripted.preprocessing = JDict options →
       EncoderDecoder.get_preprocessor instance
       = Ok (EncoderDecoder.mkPreprocessor options)) ∧
    ((∀ options, Scripted.preprocessing ≠ JDict options) →
       EncoderDecoder.get_preprocessor instance = Raise TypeError).
Proof.
  apply (get_preprocessor_after_load Scripted.make_encoder_model
           Scripted.make_step_decoder_model Scripted.make_attention_model
           Scripted.compute_output_shape Scripted.model "model" Scripted.preprocessing
           Scripted.empty_fs Scripted.saved_fs).
  vm_compute. reflexivity.
Defined.

(** The scripted model saved twice. *)
Lemma save_twice_witness :
  EncoderDecoder.save Scripted.model "model" Scripted.preprocessing Scripted.saved_fs
  = Ok Scripted.saved_fs.
Proof.
  apply (save_twice Scripted.model "model" Scripted.preprocessing Scripted.empty_fs).
  vm_compute. reflexivity.
Defined.

(** What the save of the scripted model leaves alone. *)
Lemma save_frame_witness :
  (∀ p, p ≠ EncoderDecoder.os_path_join "model" "params.json" →
        p ≠ EncoderDecoder.os_path_join "model" "encoder.h5" →
        p ≠ EncoderDecoder.os_path_join "model" "decoder.h5" →
        p ≠ EncoderDecoder.os_path_join "model" "attention.h5" →
        EncoderDecoder.files Scripted.saved_fs !! p
        = EncoderDecoder.files Scripted.empty_fs !! p) ∧
  (EncoderDecoder.os_path_exists Scripted.empty_fs "model" = true →
   EncoderDecoder.dirs Scripted.saved_fs = EncoderDecoder.dirs Scripted.empty_fs) ∧
  (EncoderDecoder.os_path_exists Scripted.empty_fs "model" = false →
   EncoderDecoder.dirs Scripted.saved_fs
   = {["model"]} ∪ EncoderDecoder.dirs Scripted.empty_fs).
Proof.
  apply (save_frame Scripted.model "model" Scripted.preprocessing Scripted.empty_fs).
  vm_compute. reflexivity.
Defined.

(** Nothing is at the empty path of the empty file system. *)
Lemma save_empty_path_witness :
  EncoderDecoder.save Scripted.model "" Scripted.preprocessing Scripted.empty_fs
  = Raise FileNotFoundError.
Proof.
  apply (save_empty_path Scripted.model Scripted.preprocessing Scripted.empty_fs).
  reflexivity.
Defined.

(** The scripted model loaded from where it was saved. *)
Lemma load_reads_witness :
  ∃ d kwargs,
    EncoderDecoder.files Scripted.saved_fs !! EncoderDecoder.os_path_join "model" "params.json"
      = Some (EncoderDecoder.JsonFile d) ∧
    EncoderDecoder.getitem d "params" = Ok (JDict kwargs) ∧
    dom kwargs = list_to_set EncoderDecoder.init_parameters ∧
    EncoderDecoder.files Scripted.saved_fs !! EncoderDecoder.os_path_join "model" "encoder.h5"
      = Some (EncoderDecoder.ModelFile (EncoderDecoder._encoder Scripted.model)) ∧
    EncoderDecoder.files Scripted.saved_fs !! EncoderDecoder.os_path_join "model" "decoder.h5"
      = Some (EncoderDecoder.ModelFile (EncoderDecoder._decoder Scripted.model)) ∧
    EncoderDecoder.files Scripted.saved_fs
      !! EncoderDecoder.os_path_join "model" "attention.h5"
      = Some (EncoderDecoder.ModelFile (EncoderDecoder._attention Scripted.model)) ∧
    EncoderDecoder.getitem d "preprocessing" = Ok Scripted.preprocessing ∧
    (5 : Z) = 5 ∧
    Input [64; 256; 1] = Input [64; 256; 1] ∧
    Input [4; 5] = Input [4; 5].
Proof.
  apply (load_reads Scripted.make_encoder_model Scripted.make_step_decoder_model
           Scripted.make_attention_model Scripted.compute_output_shape
           "model" Scripted.saved_fs
           (EncoderDecoder.mkModel 64 16 5 256 4 0 1 (Input [64; 256; 1]) (Input [4; 5])
              (EncoderDecoder._encoder Scripted.model)
              (EncoderDecoder._decoder Scripted.model)
              (EncoderDecoder._attention Scripted.model) 5 Scripted.preprocessing)).
  vm_compute. reflexivity.
Defined.

(** A directory whose [params.json] lacks the key [eos]; and an empty file
    system. *)
Lemma load_rejects_other_keys_witness :
  Scripted.load "model"
    (EncoderDecoder.mkFS ∅
       {["model/params.json" :=
           EncoderDecoder.JsonFile
             (JDict {["params" := JDict {["height" := JInt 64]}]})]})
  = Raise TypeError.
Proof.
  apply (load_rejects_other_keys Scripted.make_encoder_model
           Scripted.make_step_decoder_model Scripted.make_attention_model
           Scripted.compute_output_shape "model" _
           (JDict {["params" := JDict {["height" := JInt 64]}]})
           {["height" := JInt 64]}).
  - simpl. set_solver.
  - reflexivity.
  - reflexivity.
  - simpl. rewrite dom_singleton_L. intros Heq.
    assert ("eos" ∈ ({["height"]} : gset string)) as Hin by (rewrite Heq; set_solver).
    set_solver.
Defined.

Lemma load_without_params_witness :
  Scripted.load "model" Scripted.empty_fs = Raise FileNotFoundError.
Proof.
  apply (load_without_params Scripted.make_encoder_model
           Scripted.make_step_decoder_model Scripted.make_attention_model
           Scripted.compute_output_shape "model" Scripted.empty_fs).
  - simpl. set_solver.
  - reflexivity.
Defined.
